(** * feast-spark-offline-store: point-in-time join, source descriptors

    A shallow embedding of
    - [feast_spark_offline_store/spark.py]: the SQL template
      [MULTIPLE_FEATURE_VIEW_POINT_IN_TIME_JOIN] (one definition per view /
      common table expression, read with the bag semantics of SQL) and
      [SparkOfflineStore.pull_latest_from_table_or_query];
    - [feast_spark_offline_store/spark_source.py]: [SparkSource],
      [SparkOptions], their proto round trip and schema discovery.

    Relations are lists of rows (bags, in row order).  Timestamps are
    integers counting microseconds; entity key values and timestamps are
    not NULL (feast requires both for every entity row). *)

From stdpp Require Import base decidable option list gmap strings pretty.
From Stdlib Require Import ZArith Lia Ascii.

Local Open Scope Z_scope.

(** ** Values and rows *)

(** A column value of an entity key or of a feature. *)
Inductive value :=
  | VInt (z : Z)
  | VStr (s : string).

Global Instance value_eq_dec : EqDecision value.
Proof. solve_decision. Defined.

(** [CAST(v AS STRING)]: integers in decimal, strings as they are. *)
Definition cast_string (v : value) : string :=
  match v with
  | VInt z => pretty z
  | VStr s => s
  end.

(** SQL [CONCAT(s1, ..., sn)]. *)
Definition CONCAT (parts : list string) : string :=
  foldr String.append "" parts.

(** [interval 'n' second], in microseconds. *)
Definition interval_second (n : Z) : Z := n * 1000000.

(** SQL [MAX] and [MIN] over a column: NULL ([None]) on no rows. *)
Definition sql_max (l : list Z) : option Z :=
  match l with
  | [] => None
  | x :: l' => Some (foldr Z.max x l')
  end.

Definition sql_min (l : list Z) : option Z :=
  match l with
  | [] => None
  | x :: l' => Some (foldr Z.min x l')
  end.

(** A row of the entity dataframe ([left_table_query_string]): its columns
    by name, and the value of [entity_df_event_timestamp_col]. *)
Record EntityRow := {
  er_columns : list (string * value);
  er_event_timestamp : Z;
}.

Global Instance EntityRow_eq_dec : EqDecision EntityRow.
Proof. solve_decision. Defined.

(** The value of column [c] of an entity row.  A join key column that is
    absent from the frame cannot reach the query:
    [assert_expected_columns_in_entity_df] rejects the request first
    (spark.py, get_historical_features); the default only makes the lookup
    total. *)
Fixpoint assoc (c : string) (cols : list (string * value)) : option value :=
  match cols with
  | [] => None
  | (k, v) :: cols' => if decide (k = c) then Some v else assoc c cols'
  end.

Definition column (e : EntityRow) (c : string) : value :=
  default (VStr "") (assoc c (er_columns e)).

(** The fields of feast's per-view query context that the template reads. *)
Record FeatureViewQueryContext := {
  name : string;
  ttl : Z;
  entities : list string;
  features : list string;
  event_timestamp_column : string;
  created_timestamp_column : option string;
  table_subquery : string;
}.

(** Jinja / Python truthiness of [featureview.created_timestamp_column]:
    [None] and the empty string are false. *)
Definition has_created (fv : FeatureViewQueryContext) : bool :=
  match created_timestamp_column fv with
  | Some s => if decide (s = "") then false else true
  | None => false
  end.

(** A row of [featureview.table_subquery] as the select list of
    [<view>__subquery] reads it: the event timestamp column, the created
    timestamp column (read only when the view declares one), the entity
    columns in the order of [featureview.entities] and the feature columns
    in the order of [featureview.features]. *)
Record SourceRow := {
  event_timestamp : Z;
  created_timestamp : Z;
  entity_values : list value;
  feature_values : list value;
}.

Global Instance SourceRow_eq_dec : EqDecision SourceRow.
Proof. solve_decision. Defined.

(** A row of [<view>__entity_dataframe]. *)
Record ViewEntityRow := {
  ve_keys : list value;
  ve_entity_timestamp : Z;
  ve_entity_row_unique_id : string;
}.

Global Instance ViewEntityRow_eq_dec : EqDecision ViewEntityRow.
Proof. solve_decision. Defined.

(** A row of [<view>__base]: [subquery.*], [entity_timestamp] and the
    view's [entity_row_unique_id]. *)
Record BaseRow := {
  b_src : SourceRow;
  b_entity_timestamp : Z;
  b_entity_row_unique_id : string;
}.

Global Instance BaseRow_eq_dec : EqDecision BaseRow.
Proof. solve_decision. Defined.

(** A row of [<view>__dedup]. *)
Record DedupRow := {
  d_entity_row_unique_id : string;
  d_event_timestamp : Z;
  d_created_timestamp : Z;
}.

(** A row of [<view>__latest]; the created timestamp column exists only
    when the view declares one. *)
Record LatestRow := {
  l_entity_row_unique_id : string;
  l_event_timestamp : Z;
  l_created_timestamp : option Z;
}.

(** A row of the final select: the entity row and, per feature view in
    template order, the feature values joined to it ([None]: the left join
    found no row, every feature column of that view is NULL). *)
Record OutputRow := {
  o_entity : EntityRow;
  o_features : list (option (list value));
}.

Global Instance OutputRow_eq_dec : EqDecision OutputRow.
Proof. solve_decision. Defined.

(** ** The point-in-time join template *)

Section PointInTimeJoin.

(** Spark's [CAST(<timestamp> AS STRING)]. *)
Variable cast_timestamp : Z → string.

(** The tables and queries of the backend, by [table_subquery]. *)
Variable tables : string → list SourceRow.

Definition key_values (fv : FeatureViewQueryContext) (e : EntityRow) : list value :=
  column e <$> entities fv.

(** [CONCAT(CAST(e1 AS STRING), ..., CAST(ts AS STRING))
     AS <view>__entity_row_unique_id] *)
Definition entity_row_unique_id (fv : FeatureViewQueryContext) (e : EntityRow) : string :=
  CONCAT ((cast_string <$> key_values fv e) ++ [cast_timestamp (er_event_timestamp e)]).

(** The select list of [<view>__entity_dataframe], on one row of
    [entity_dataframe]. *)
Definition view_entity_row (fv : FeatureViewQueryContext) (e : EntityRow) : ViewEntityRow :=
  {| ve_keys := key_values fv e;
     ve_entity_timestamp := er_event_timestamp e;
     ve_entity_row_unique_id := entity_row_unique_id fv e |}.

(** [<view>__entity_dataframe]: [GROUP BY] every selected column, that is
    the distinct (keys, entity_timestamp, id). *)
Definition fv_entity_dataframe (fv : FeatureViewQueryContext)
    (entity_dataframe : list EntityRow) : list ViewEntityRow :=
  remove_dups (view_entity_row fv <$> entity_dataframe).

Definition max_entity_timestamp_ (entity_dataframe : list EntityRow) : option Z :=
  sql_max (er_event_timestamp <$> entity_dataframe).

(** [MIN(entity_timestamp) - interval '<ttl>' second] *)
Definition min_entity_timestamp_ (fv : FeatureViewQueryContext)
    (entity_dataframe : list EntityRow) : option Z :=
  (λ m, m - interval_second (ttl fv)) <$> sql_min (er_event_timestamp <$> entity_dataframe).

(** The [ON] condition of the prefilter, against the one row of [temp]. *)
Definition prefilter_cond (fv : FeatureViewQueryContext) (mx mn : Z) (s : SourceRow) : Prop :=
  event_timestamp s ≤ mx ∧ (ttl fv = 0 ∨ mn ≤ event_timestamp s).

Global Instance prefilter_cond_dec fv mx mn s : Decision (prefilter_cond fv mx mn s).
Proof. unfold prefilter_cond. apply _. Defined.

(** [<view>__subquery]: the source rows kept by the global bounds ([temp]
    has the [min_entity_timestamp_] column only when the ttl is not 0, where
    alone [prefilter_cond] reads it).  Over an empty entity dataframe both
    aggregates are NULL and no row passes. *)
Definition fv_subquery (fv : FeatureViewQueryContext)
    (entity_dataframe : list EntityRow) : list SourceRow :=
  match max_entity_timestamp_ entity_dataframe,
        min_entity_timestamp_ fv entity_dataframe with
  | Some mx, Some mn => filter (prefilter_cond fv mx mn) (tables (table_subquery fv))
  | _, _ => []
  end.

(** [entity_timestamp - interval '<ttl>' second] *)
Definition ttl_entity_timestamp (fv : FeatureViewQueryContext) (e : ViewEntityRow) : Z :=
  ve_entity_timestamp e - interval_second (ttl fv).

(** The [ON] condition of [<view>__base]. *)
Definition join_cond (fv : FeatureViewQueryContext) (s : SourceRow) (e : ViewEntityRow) : Prop :=
  event_timestamp s ≤ ve_entity_timestamp e
  ∧ (ttl fv = 0 ∨ ttl_entity_timestamp fv e ≤ event_timestamp s)
  ∧ entity_values s = ve_keys e.

Global Instance join_cond_dec fv s e : Decision (join_cond fv s e).
Proof. unfold join_cond. apply _. Defined.

Definition range_join (fv : FeatureViewQueryContext) (subquery : list SourceRow)
    (entity_dataframe : list EntityRow) : list BaseRow :=
  s ← subquery;
  e ← filter (join_cond fv s) (fv_entity_dataframe fv entity_dataframe);
  [ {| b_src := s;
       b_entity_timestamp := ve_entity_timestamp e;
       b_entity_row_unique_id := ve_entity_row_unique_id e |} ].

(** [<view>__base] *)
Definition fv_base (fv : FeatureViewQueryContext)
    (entity_dataframe : list EntityRow) : list BaseRow :=
  range_join fv (fv_subquery fv entity_dataframe) entity_dataframe.

Definition b_event_timestamp (r : BaseRow) : Z := event_timestamp (b_src r).
Definition b_created_timestamp (r : BaseRow) : Z := created_timestamp (b_src r).

(** [<view>__dedup]: [MAX(created_timestamp)] per (id, event_timestamp). *)
Definition fv_dedup (base : list BaseRow) : list DedupRow :=
  k ← remove_dups ((λ r, (b_entity_row_unique_id r, b_event_timestamp r)) <$> base);
  match sql_max (b_created_timestamp <$>
           filter (λ r, (b_entity_row_unique_id r, b_event_timestamp r) = k) base) with
  | Some c => [ {| d_entity_row_unique_id := k.1;
                   d_event_timestamp := k.2;
                   d_created_timestamp := c |} ]
  | None => []
  end.

Definition dedup_cond (r : BaseRow) (d : DedupRow) : Prop :=
  d_entity_row_unique_id d = b_entity_row_unique_id r
  ∧ d_event_timestamp d = b_event_timestamp r
  ∧ d_created_timestamp d = b_created_timestamp r.

Global Instance dedup_cond_dec r d : Decision (dedup_cond r d).
Proof. unfold dedup_cond. apply _. Defined.

(** The [FROM] clause of [<view>__latest]: [base], inner-joined with
    [dedup] when a created timestamp column is declared. *)
Definition latest_from (fv : FeatureViewQueryContext) (base : list BaseRow) : list BaseRow :=
  if has_created fv
  then r ← base; _ ← filter (dedup_cond r) (fv_dedup base); [r]
  else base.

(** [<view>__latest]: per id, [MAX(event_timestamp)] and, when declared,
    [MAX(created_timestamp)], each over the whole group. *)
Definition fv_latest (fv : FeatureViewQueryContext) (base : list BaseRow) : list LatestRow :=
  let from := latest_from fv base in
  k ← remove_dups (b_entity_row_unique_id <$> from);
  let group := filter (λ r, b_entity_row_unique_id r = k) from in
  match sql_max (b_event_timestamp <$> group) with
  | Some t => [ {| l_entity_row_unique_id := k;
                   l_event_timestamp := t;
                   l_created_timestamp :=
                     if has_created fv then sql_max (b_created_timestamp <$> group)
                     else None |} ]
  | None => []
  end.

Definition cleaned_cond (fv : FeatureViewQueryContext) (r : BaseRow) (l : LatestRow) : Prop :=
  b_entity_row_unique_id r = l_entity_row_unique_id l
  ∧ b_event_timestamp r = l_event_timestamp l
  ∧ (has_created fv = true → Some (b_created_timestamp r) = l_created_timestamp l).

Global Instance cleaned_cond_dec fv r l : Decision (cleaned_cond fv r l).
Proof. unfold cleaned_cond. apply _. Defined.

(** [<view>__cleaned], over a given [base]. *)
Definition cleaned_of (fv : FeatureViewQueryContext) (base : list BaseRow) : list BaseRow :=
  r ← base; _ ← filter (cleaned_cond fv r) (fv_latest fv base); [r].

Definition fv_cleaned (fv : FeatureViewQueryContext)
    (entity_dataframe : list EntityRow) : list BaseRow :=
  cleaned_of fv (fv_base fv entity_dataframe).

(** One [LEFT JOIN (SELECT id, features FROM <view>__cleaned) AS
    <view>__joined ON <view>__joined.id = entity_dataframe.id]. *)
Definition left_join_view (fv : FeatureViewQueryContext) (cleaned : list BaseRow)
    (rows : list OutputRow) : list OutputRow :=
  o ← rows;
  match filter (λ c, b_entity_row_unique_id c = entity_row_unique_id fv (o_entity o)) cleaned with
  | [] => [ {| o_entity := o_entity o; o_features := o_features o ++ [None] |} ]
  | matches =>
      (λ c, {| o_entity := o_entity o;
               o_features := o_features o ++ [Some (feature_values (b_src c))] |})
        <$> matches
  end.

(** The chain of left joins over rows already produced. *)
Definition left_joins (featureviews : list FeatureViewQueryContext)
    (entity_dataframe : list EntityRow) (rows : list OutputRow) : list OutputRow :=
  foldl (λ acc fv, left_join_view fv (fv_cleaned fv entity_dataframe) acc) rows featureviews.

(** The final select of the template. *)
Definition point_in_time_join (featureviews : list FeatureViewQueryContext)
    (entity_dataframe : list EntityRow) : list OutputRow :=
  left_joins featureviews entity_dataframe
    ((λ e, {| o_entity := e; o_features := [] |}) <$> entity_dataframe).

End PointInTimeJoin.

(** ** Notions the properties are stated with *)

(** A rendering of timestamps is self-delimiting when a string that ends
    in a rendering determines the timestamp rendered: it is injective and no
    rendering is a proper suffix of another one.  Spark's
    [yyyy-MM-dd HH:mm:ss[.ffffff]] has the property over four-digit years. *)
Definition self_delimiting (render : Z → string) : Prop :=
  ∀ (a b : string) (t t' : Z), a +:+ render t = b +:+ render t' → t = t'.

(** The plan of the specification, section 4.2 without step 1: the exact
    range join on every row of the view's source. *)
Definition fv_base_exact (cast_timestamp : Z → string) (tables : string → list SourceRow)
    (fv : FeatureViewQueryContext) (entity_dataframe : list EntityRow) : list BaseRow :=
  range_join cast_timestamp fv (tables (table_subquery fv)) entity_dataframe.

Definition fv_cleaned_exact (cast_timestamp : Z → string) (tables : string → list SourceRow)
    (fv : FeatureViewQueryContext) (entity_dataframe : list EntityRow) : list BaseRow :=
  cleaned_of fv (fv_base_exact cast_timestamp tables fv entity_dataframe).

(** What one view's left join leaves in its slot of an output row of entity
    row [e]: the feature values of a cleaned row that carries the id of [e],
    or NULLs when no cleaned row does. *)
Definition slot_of (cast_timestamp : Z → string) (fv : FeatureViewQueryContext)
    (cleaned : list BaseRow) (e : EntityRow) (slot : option (list value)) : Prop :=
  match slot with
  | Some vals =>
      ∃ c, c ∈ cleaned
           ∧ b_entity_row_unique_id c = entity_row_unique_id cast_timestamp fv e
           ∧ vals = feature_values (b_src c)
  | None =>
      ∀ c, c ∈ cleaned → b_entity_row_unique_id c ≠ entity_row_unique_id cast_timestamp fv e
  end.

(** The slots of an output row, view by view. *)
Definition slots_of (cast_timestamp : Z → string) (tables : string → list SourceRow)
    (featureviews : list FeatureViewQueryContext) (entity_dataframe : list EntityRow)
    (o : OutputRow) : Prop :=
  Forall2 (λ fv slot,
             slot_of cast_timestamp fv
               (fv_cleaned cast_timestamp tables fv entity_dataframe) (o_entity o) slot)
    featureviews (o_features o).

(** The output rows the template produces for one row of the entity
    dataframe. *)
Definition output_rows_of (cast_timestamp : Z → string) (tables : string → list SourceRow)
    (featureviews : list FeatureViewQueryContext) (entity_dataframe : list EntityRow)
    (e : EntityRow) : list OutputRow :=
  left_joins cast_timestamp tables featureviews entity_dataframe
    [ {| o_entity := e; o_features := [] |} ].


(** ** Column names of the template *)

(** Where an output column comes from. *)
Inductive origin :=
  | FromEntityFrame
  | Internal
  | Feature (view feature : string).

Record Column := {
  c_origin : origin;
  c_name : string;
}.

(** [{% if full_feature_names %}{{ featureview.name }}__{{feature}}
     {% else %}{{ feature }}{% endif %}] *)
Definition feature_alias (full_feature_names : bool) (fv : FeatureViewQueryContext)
    (feature : string) : string :=
  if full_feature_names then name fv +:+ "__" +:+ feature else feature.

Definition entity_row_unique_id_column (fv : FeatureViewQueryContext) : string :=
  name fv +:+ "__entity_row_unique_id".

Definition feature_columns (full_feature_names : bool) (fv : FeatureViewQueryContext)
    : list Column :=
  (λ f, {| c_origin := Feature (name fv) f;
           c_name := feature_alias full_feature_names fv f |}) <$> features fv.

(** The columns of the view [entity_dataframe]: [SELECT *], the unified
    [entity_timestamp] and one id column per feature view. *)
Definition entity_dataframe_columns (entity_df_columns : list string)
    (featureviews : list FeatureViewQueryContext) : list Column :=
  ((λ c, {| c_origin := FromEntityFrame; c_name := c |}) <$> entity_df_columns)
  ++ [ {| c_origin := Internal; c_name := "entity_timestamp" |} ]
  ++ ((λ fv, {| c_origin := Internal; c_name := entity_row_unique_id_column fv |})
        <$> featureviews).

(** The select list of [<view>__subquery]. *)
Definition subquery_columns (full_feature_names : bool) (fv : FeatureViewQueryContext)
    : list Column :=
  [ {| c_origin := Internal; c_name := "event_timestamp" |} ]
  ++ (if has_created fv
      then [ {| c_origin := Internal; c_name := "created_timestamp" |} ]
      else [])
  ++ ((λ e, {| c_origin := Internal; c_name := e |}) <$> entities fv)
  ++ feature_columns full_feature_names fv.

(** The columns of [<view>__base], and of [<view>__cleaned] ([base.*]). *)
Definition base_columns (full_feature_names : bool) (fv : FeatureViewQueryContext)
    : list Column :=
  subquery_columns full_feature_names fv
  ++ [ {| c_origin := Internal; c_name := "entity_timestamp" |};
       {| c_origin := Internal; c_name := entity_row_unique_id_column fv |} ].

(** The select list of [<view>__joined]. *)
Definition joined_columns (full_feature_names : bool) (fv : FeatureViewQueryContext)
    : list Column :=
  {| c_origin := Internal; c_name := entity_row_unique_id_column fv |}
  :: feature_columns full_feature_names fv.

(** The final select list: the columns of [entity_dataframe] and of every
    [<view>__joined] whose name the quoted regular expression
    [(entity_timestamp|<view>__entity_row_unique_id|...)?+.+] selects;
    [selects] is Spark's matching of that expression. *)
Definition final_columns (selects : string → bool) (full_feature_names : bool)
    (entity_df_columns : list string) (featureviews : list FeatureViewQueryContext)
    : list Column :=
  filter (λ c, selects (c_name c))
    (entity_dataframe_columns entity_df_columns featureviews
     ++ (featureviews ≫= joined_columns full_feature_names)).

(** ** spark_source.py *)

Module Source.

(** [SparkOptions]: the attributes [_table] and [_query]. *)
Record SparkOptions := {
  _table : option string;
  _query : option string;
}.

(** [SparkSource]: the attributes the base class [DataSource] keeps, and
    [_spark_options]. *)
Record SparkSource := {
  event_timestamp_column : option string;
  created_timestamp_column : option string;
  field_mapping : gmap string string;
  date_partition_column : option string;
  _spark_options : SparkOptions;
}.

Definition table (d : SparkSource) : option string := _table (_spark_options d).
Definition query (d : SparkSource) : option string := _query (_spark_options d).

(** Python truthiness of an optional string. *)
Definition truthy (s : option string) : bool :=
  match s with
  | Some s => if decide (s = "") then false else true
  | None => false
  end.

(** How an f-string formats an optional string. *)
Definition format (s : option string) : string := default "None" s.

(** [get_table_query_string] *)
Definition get_table_query_string (d : SparkSource) : string :=
  if truthy (table d)
  then "`" +:+ format (table d) +:+ "`"
  else "(" +:+ format (query d) +:+ ")".

(** What raising Python code returns. *)
Inductive exn :=
  | TypeError
  | AssertionError
  | UnpicklingError
  | AnalysisException
  | DataSourceNotFoundException (table : option string)
  | Py4JJavaError.

Inductive result (A : Type) :=
  | Ok (a : A)
  | Raise (e : exn).
Global Arguments Ok {A} a.
Global Arguments Raise {A} e.

Definition bind {A B} (r : result A) (k : A → result B) : result B :=
  match r with
  | Ok a => k a
  | Raise e => Raise e
  end.

(** [DataSourceProto.CustomSourceOptions] *)
Record CustomSourceOptions (bytes : Type) := {
  configuration : bytes;
}.
Global Arguments configuration {bytes} _.

Inductive SourceType := CUSTOM_SOURCE.

(** [DataSourceProto]: the fields the two conversions touch.  The three
    column fields are proto3 strings. *)
Record DataSourceProto (bytes : Type) := {
  p_type : SourceType;
  p_field_mapping : gmap string string;
  p_custom_options : option (CustomSourceOptions bytes);
  p_event_timestamp_column : string;
  p_created_timestamp_column : string;
  p_date_partition_column : string;
}.
Global Arguments p_type {bytes} _.
Global Arguments p_field_mapping {bytes} _.
Global Arguments p_custom_options {bytes} _.
Global Arguments p_event_timestamp_column {bytes} _.
Global Arguments p_created_timestamp_column {bytes} _.
Global Arguments p_date_partition_column {bytes} _.

(** Assigning a Python value to a proto string field: [None] is refused. *)
Definition set_string_field (v : option string) : result string :=
  match v with
  | Some s => Ok s
  | None => Raise TypeError
  end.

Section Conversions.

(** [pickle.dumps] and [pickle.loads] on [SparkOptions] objects. *)
Variable bytes : Type.
Variable pickle_dumps : SparkOptions → bytes.
Variable pickle_loads : bytes → result SparkOptions.

(** What [DataSource.__init__] of feast leaves in a column-name attribute
    and in [field_mapping], given the constructor's argument. *)
Variable DataSource_column : option string → option string.
Variable DataSource_field_mapping : option (gmap string string) → gmap string string.

(** [SparkSource.__init__] *)
Definition SparkSource_init (table query : option string)
    (event_timestamp_column created_timestamp_column : option string)
    (field_mapping : option (gmap string string))
    (date_partition_column : option string) : SparkSource :=
  {| event_timestamp_column := DataSource_column event_timestamp_column;
     created_timestamp_column := DataSource_column created_timestamp_column;
     field_mapping := DataSource_field_mapping field_mapping;
     date_partition_column := DataSource_column date_partition_column;
     _spark_options := {| _table := table; _query := query |} |}.

(** [SparkOptions.to_proto] *)
Definition SparkOptions_to_proto (o : SparkOptions) : CustomSourceOptions bytes :=
  {| configuration := pickle_dumps o |}.

(** [SparkOptions.from_proto] *)
Definition SparkOptions_from_proto (p : CustomSourceOptions bytes) : result SparkOptions :=
  bind (pickle_loads (configuration p)) (λ spark_configuration,
    Ok {| _table := _table spark_configuration;
          _query := _query spark_configuration |}).

(** [SparkSource.to_proto] *)
Definition to_proto (d : SparkSource) : result (DataSourceProto bytes) :=
  bind (set_string_field (event_timestamp_column d)) (λ ets,
  bind (set_string_field (created_timestamp_column d)) (λ cts,
  bind (set_string_field (date_partition_column d)) (λ dpc,
    Ok {| p_type := CUSTOM_SOURCE;
          p_field_mapping := field_mapping d;
          p_custom_options := Some (SparkOptions_to_proto (_spark_options d));
          p_event_timestamp_column := ets;
          p_created_timestamp_column := cts;
          p_date_partition_column := dpc |}))).

(** [SparkSource.from_proto] *)
Definition from_proto (p : DataSourceProto bytes) : result SparkSource :=
  match p_custom_options p with
  | None => Raise AssertionError
  | Some custom_options =>
      bind (SparkOptions_from_proto custom_options) (λ spark_options,
        Ok (SparkSource_init
              (_table spark_options) (_query spark_options)
              (Some (p_event_timestamp_column p))
              (Some (p_created_timestamp_column p))
              (Some (p_field_mapping p))
              (Some (p_date_partition_column p))))
  end.

End Conversions.

(** A field of [schema.jsonValue()["fields"]]. *)
Record StructField := {
  sf_name : string;
  sf_type : string;
  sf_nullable : bool;
}.

Section SchemaDiscovery.

(** What [spark_session.table(None)] raises. *)
Variable table_of_None : exn.

(** [spark_session.table(name).schema.jsonValue()["fields"]], over the
    catalog of the session: the schema of every relation that exists. *)
Definition session_table_fields (catalog : gmap string (list StructField))
    (table_name : option string) : result (list StructField) :=
  match table_name with
  | Some t =>
      match catalog !! t with
      | Some fields => Ok fields
      | None => Raise AnalysisException
      end
  | None => Raise table_of_None
  end.

(** [SparkSource.get_table_column_names_and_types] *)
Definition get_table_column_names_and_types (catalog : gmap string (list StructField))
    (d : SparkSource) : result (list (string * string)) :=
  match session_table_fields catalog (table d) with
  | Ok fields => Ok ((λ f, (sf_name f, sf_type f)) <$> fields)
  | Raise AnalysisException => Raise (DataSourceNotFoundException (table d))
  | Raise e => Raise e
  end.

End SchemaDiscovery.

End Source.

(** ** pull_latest_from_table_or_query *)

Module PullLatest.

(** A [datetime]: its wall clock reading in microseconds and, when it is
    aware, the UTC offset of its [tzinfo]. *)
Record datetime := {
  wall_clock : Z;
  utcoffset : option Z;
}.

(** [_format_datetime]: the reading that the formatted string spells, in
    UTC for an aware datetime. *)
Definition _format_datetime (t : datetime) : Z :=
  match utcoffset t with
  | Some offset => wall_clock t - offset
  | None => wall_clock t
  end.

(** Python's [sep.join(l)]. *)
Definition join (sep : string) (l : list string) : string := String.concat sep l.

Definition partition_by_join_key_string (join_key_columns : list string) : string :=
  let s := join ", " join_key_columns in
  if decide (s = "") then s else "PARTITION BY " +:+ s.

Definition timestamps (event_timestamp_column : string)
    (created_timestamp_column : option string) : list string :=
  if Source.truthy created_timestamp_column
  then [event_timestamp_column; Source.format created_timestamp_column]
  else [event_timestamp_column].

Definition timestamp_desc_string (timestamps : list string) : string :=
  join " DESC, " timestamps +:+ " DESC".

Definition field_string (join_key_columns feature_name_columns timestamps : list string)
    : string :=
  join ", " (join_key_columns ++ feature_name_columns ++ timestamps).

(** The query of the f-string, clause by clause. *)
Record Query := {
  select : string;
  partition_by : string;
  order_by : string;
  from_expression : string;
  between_column : string;
  between_start : Z;
  between_end : Z;
  with_created : bool;
}.

(** [SparkRetrievalJob]; an on-demand feature view is known by its name. *)
Record SparkRetrievalJob := {
  query : Query;
  _full_feature_names : bool;
  _on_demand_feature_views : option (list string);
}.

Definition pull_latest_from_table_or_query (data_source : Source.SparkSource)
    (join_key_columns feature_name_columns : list string)
    (event_timestamp_column : string) (created_timestamp_column : option string)
    (start_date end_date : datetime) : SparkRetrievalJob :=
  let ts := timestamps event_timestamp_column created_timestamp_column in
  {| query :=
       {| select := field_string join_key_columns feature_name_columns ts;
          partition_by := partition_by_join_key_string join_key_columns;
          order_by := timestamp_desc_string ts;
          from_expression := Source.get_table_query_string data_source;
          between_column := event_timestamp_column;
          between_start := _format_datetime start_date;
          between_end := _format_datetime end_date;
          with_created := Source.truthy created_timestamp_column |};
     _full_feature_names := false;
     _on_demand_feature_views := None |}.

(** [WHERE <event_timestamp_column> BETWEEN start AND end] *)
Definition in_window (q : Query) (r : SourceRow) : Prop :=
  between_start q ≤ event_timestamp r ∧ event_timestamp r ≤ between_end q.

Global Instance in_window_dec q r : Decision (in_window q r).
Proof. unfold in_window. apply _. Defined.

(** [ORDER BY <event> DESC [, <created> DESC]]: [r'] sorts strictly
    before [r]. *)
Definition sorts_before (q : Query) (r' r : SourceRow) : Prop :=
  event_timestamp r < event_timestamp r'
  ∨ (with_created q = true
     ∧ event_timestamp r = event_timestamp r'
     ∧ created_timestamp r < created_timestamp r').

Global Instance sorts_before_dec q r' r : Decision (sorts_before q r' r).
Proof. unfold sorts_before. apply _. Defined.

(** The row with [ROW_NUMBER() = 1] in a partition: a row that no other
    row sorts strictly before; among several such rows, which Spark may
    number in any order, the first in the order of the partition. *)
Fixpoint feast_row_1 (q : Query) (partition : list SourceRow) : option SourceRow :=
  match partition with
  | [] => None
  | r :: rest =>
      match feast_row_1 q rest with
      | Some r' => if decide (sorts_before q r' r) then Some r' else Some r
      | None => Some r
      end
  end.

(** The rows the query returns on the relation [from_expression] names:
    row number 1 of every partition of the rows inside the window, the
    partitions being the distinct join key combinations (a single one when
    there is no join key column). *)
Definition partition_key (q : Query) (r : SourceRow) : list value :=
  if decide (partition_by q = "") then [] else entity_values r.

Definition run (tables : string → list SourceRow) (q : Query) : list SourceRow :=
  let t1 := filter (in_window q) (tables (from_expression q)) in
  k ← remove_dups (partition_key q <$> t1);
  match feast_row_1 q (filter (λ r, partition_key q r = k) t1) with
  | Some r => [r]
  | None => []
  end.

End PullLatest.

(** ** A sample backend *)

(** [c] occurs in [s]. *)
Fixpoint occurs (c : Ascii.ascii) (s : string) : Prop :=
  match s with
  | EmptyString => False
  | String c' s' => c = c' ∨ occurs c s'
  end.

(** A sample rendering of timestamps: a marker and the count of
    microseconds in decimal. *)
Definition epoch_micros (t : Z) : string := String "@" (pretty t).

Definition day (n : Z) : Z := n * 86400000000.

Definition source_row (ts created : Z) (keys feats : list Z) : SourceRow :=
  {| event_timestamp := ts;
     created_timestamp := created;
     entity_values := VInt <$> keys;
     feature_values := VInt <$> feats |}.

(** View A of the scenarios of the specification: ttl of five days. *)
Definition view_A : FeatureViewQueryContext :=
  {| name := "A"; ttl := 5 * 86400; entities := ["id"]; features := ["val"];
     event_timestamp_column := "ts"; created_timestamp_column := Some "created";
     table_subquery := "`a`" |}.

(** A view without created timestamp column and without ttl. *)
Definition view_W : FeatureViewQueryContext :=
  {| name := "W"; ttl := 0; entities := ["id"]; features := ["w"];
     event_timestamp_column := "ts"; created_timestamp_column := None;
     table_subquery := "`w`" |}.

(** A view with a created timestamp column whose source holds a late
    correction of an old event. *)
Definition view_L : FeatureViewQueryContext :=
  {| name := "L"; ttl := 0; entities := ["id"]; features := ["val"];
     event_timestamp_column := "ts"; created_timestamp_column := Some "created";
     table_subquery := "`l`" |}.

(** A view with two entity key columns. *)
Definition view_P : FeatureViewQueryContext :=
  {| name := "P"; ttl := 0; entities := ["driver_id"; "customer_id"]; features := ["trips"];
     event_timestamp_column := "ts"; created_timestamp_column := None;
     table_subquery := "`p`" |}.

Definition sample_tables (t : string) : list SourceRow :=
  if decide (t = "`a`") then
    [ source_row (day 1) (day 1) [1] [10];
      source_row (day 9) (day 9) [1] [20];
      source_row (day 9) (day 9 + 43200000000) [1] [21] ]
  else if decide (t = "`w`") then
    [ source_row (day 9) 0 [2] [1];
      source_row (day 9) 0 [2] [2] ]
  else if decide (t = "`l`") then
    [ source_row (day 5) (day 100) [1] [10];
      source_row (day 9) (day 50) [1] [20] ]
  else if decide (t = "`p`") then
    [ source_row (day 9) 0 [12; 3] [7] ]
  else [].

Definition entity_row (cols : list (string * Z)) (ts : Z) : EntityRow :=
  {| er_columns := prod_map id VInt <$> cols; er_event_timestamp := ts |}.

Definition entity_1 : EntityRow := entity_row [("id", 1)] (day 10).
Definition entity_2 : EntityRow := entity_row [("id", 2)] (day 10).
Definition entity_late : EntityRow := entity_row [("id", 1)] (day 200).
Definition pair_1_23 : EntityRow := entity_row [("driver_id", 1); ("customer_id", 23)] (day 10).
Definition pair_12_3 : EntityRow := entity_row [("driver_id", 12); ("customer_id", 3)] (day 10).

(** A sample pickle: the object itself. *)
Definition sample_dumps (o : Source.SparkOptions) : Source.SparkOptions := o.
Definition sample_loads (b : Source.SparkOptions) : Source.result Source.SparkOptions :=
  Source.Ok b.

(** [x if x else ""], [x if x else {}] *)
Definition sample_column (a : option string) : option string :=
  if Source.truthy a then a else Some "".
Definition sample_field_mapping (a : option (gmap string string)) : gmap string string :=
  default ∅ a.

(** ** Notions the further properties are stated with *)

(** Row [r] is the latest of [base] for its id: no row of [base] with the
    same id has a greater event timestamp nor, when the view declares a
    created timestamp column, a greater created timestamp. *)
Definition latest_of (fv : FeatureViewQueryContext) (base : list BaseRow) (r : BaseRow) : Prop :=
  Forall (λ r', b_entity_row_unique_id r' = b_entity_row_unique_id r →
                b_event_timestamp r' ≤ b_event_timestamp r
                ∧ (has_created fv = true → b_created_timestamp r' ≤ b_created_timestamp r))
    base.

Global Instance latest_of_dec fv base r : Decision (latest_of fv base r).
Proof. unfold latest_of. apply _. Defined.

(** The view [fv] with another ttl. *)
Definition with_ttl (fv : FeatureViewQueryContext) (t : Z) : FeatureViewQueryContext :=
  {| name := name fv;
     ttl := t;
     entities := entities fv;
     features := features fv;
     event_timestamp_column := event_timestamp_column fv;
     created_timestamp_column := created_timestamp_column fv;
     table_subquery := table_subquery fv |}.

(** [SparkSource.validate]: schema discovery, its result dropped. *)
Definition validate (table_of_None : Source.exn)
    (catalog : gmap string (list Source.StructField)) (d : Source.SparkSource)
    : Source.result unit :=
  Source.bind (Source.get_table_column_names_and_types table_of_None catalog d)
    (λ _, Source.Ok ()).

(** ** The Spark session and the retrieval job *)

Module Job.

(** [SparkOfflineStoreConfig] *)
Record SparkOfflineStoreConfig := {
  type : string;
  spark_conf : option (gmap string string);
}.

(** What a call that may raise leaves: its value or the exception. *)
Inductive outcome (E A : Type) :=
  | Returned (a : A)
  | Raised (e : E).
Global Arguments Returned {E A} a.
Global Arguments Raised {E A} e.

(** The exceptions of [to_spark_df]: the one of unpacking no value, and
    those of [spark_session.sql]. *)
Inductive to_spark_df_error (E : Type) :=
  | ValueError
  | SqlError (e : E).
Global Arguments ValueError {E}.
Global Arguments SqlError {E} e.

(** Python's [s.split(sep)] for a separator that is not empty: [cur] is
    the part being read and [skip] the number of characters of a separator
    still to pass over. *)
Fixpoint split_go (sep : string) (skip : nat) (cur s : string) : list string :=
  match s with
  | EmptyString => [cur]
  | String c s' =>
      match skip with
      | S k => split_go sep k cur s'
      | O =>
          if String.prefix sep s
          then cur :: split_go sep (String.length sep - 1) "" s'
          else split_go sep 0 (cur +:+ String c "") s'
      end
  end.

Definition split (sep s : string) : list string := split_go sep 0 "" s.

Definition EOS : string := "---EOS---".

Section Spark.

(** The state of the Spark runtime, the sessions in it and the data
    frames it returns. *)
Variable World : Type.
Variable SparkSession : Type.
Variable DataFrame : Type.
Variable SparkError : Type.

(** [SparkSession.getActiveSession()] *)
Variable getActiveSession : World → option SparkSession.

(** [SparkSession.builder.getOrCreate()], after
    [.config(conf=SparkConf().setAll(items))] when it is given items. *)
Variable getOrCreate : option (gmap string string) → World → SparkSession * World.

(** [spark_session.conf.set(key, value)] *)
Variable conf_set : SparkSession → string → string → World → World.

(** [spark_session.sql(statement)] *)
Variable sql : SparkSession → string → World → outcome SparkError DataFrame * World.

(** [get_spark_session_or_start_new_with_repoconfig]; an empty
    [spark_conf] is false like [None]. *)
Definition get_spark_session_or_start_new_with_repoconfig
    (store_config : SparkOfflineStoreConfig) (w : World) : SparkSession * World :=
  let '(spark_session, w) :=
    match getActiveSession w with
    | Some spark_session => (spark_session, w)
    | None =>
        match spark_conf store_config with
        | Some conf =>
            if decide (conf = ∅) then getOrCreate None w else getOrCreate (Some conf) w
        | None => getOrCreate None w
        end
    end in
  (spark_session,
   conf_set spark_session "spark.sql.parser.quotedRegexColumnNames" "true" w).

(** [*_, last = map(spark_session.sql, statements)]: the statements run
    in order, an exception ends the run, and [last] is the value of the
    last statement. *)
Fixpoint run_statements (spark_session : SparkSession) (statements : list string)
    (last : option DataFrame) (w : World)
    : outcome (to_spark_df_error SparkError) DataFrame * World :=
  match statements with
  | [] =>
      match last with
      | Some df => (Returned df, w)
      | None => (Raised ValueError, w)
      end
  | statement :: statements' =>
      match sql spark_session statement w with
      | (Returned df, w') => run_statements spark_session statements' (Some df) w'
      | (Raised e, w') => (Raised (SqlError e), w')
      end
  end.

(** [SparkRetrievalJob.to_spark_df], on the job's session and query. *)
Definition to_spark_df (spark_session : SparkSession) (query : string) (w : World)
    : outcome (to_spark_df_error SparkError) DataFrame * World :=
  run_statements spark_session (split EOS query) None w.

End Spark.

(** No separator starts inside [p] when a separator follows [p]. *)
Fixpoint clear_of (sep p : string) : Prop :=
  match p with
  | EmptyString => True
  | String c p' => String.prefix sep (p +:+ sep) = false ∧ clear_of sep p'
  end.

Global Instance clear_of_dec sep p : Decision (clear_of sep p).
Proof. induction p as [|c p IH]; simpl; apply _. Defined.

(** A sample runtime: whether its one session is active, and the settings
    of that session. *)
Definition sample_getActiveSession (w : bool * gmap string string) : option unit :=
  if w.1 then Some () else None.
Definition sample_getOrCreate (conf : option (gmap string string))
    (w : bool * gmap string string) : unit * (bool * gmap string string) :=
  ((), (true, default ∅ conf ∪ w.2)).
Definition sample_conf_set (s : unit) (k v : string) (w : bool * gmap string string)
    : bool * gmap string string :=
  (w.1, <[k:=v]> w.2).
Definition sample_conf_get (s : unit) (k : string) (w : bool * gmap string string)
    : option string :=
  w.2 !! k.

End Job.

(** * Properties of the point-in-time join *)

(** Decides a closed proposition by evaluating its decision procedure. *)
Ltac by_evaluation := apply (bool_decide_unpack _); vm_compute; exact I.

Lemma string_app_cons (c : Ascii.ascii) (s q : string) :
  String c s +:+ q = String c (s +:+ q).
Proof. reflexivity. Qed.

Lemma string_app_empty_r (s : string) : s +:+ "" = s.
Proof. induction s as [|c s IH]; [done|]. by rewrite string_app_cons, IH. Qed.

Lemma string_app_assoc (p q r : string) : (p +:+ q) +:+ r = p +:+ (q +:+ r).
Proof. induction p as [|c p IH]; [done|]. by rewrite !string_app_cons, IH. Qed.

Lemma CONCAT_snoc (parts : list string) (s : string) :
  CONCAT (parts ++ [s]) = CONCAT parts +:+ s.
Proof.
  induction parts as [|p parts IH]; simpl.
  - apply string_app_empty_r.
  - by rewrite IH, string_app_assoc.
Qed.

Lemma sql_max_elem (l : list Z) (m : Z) : sql_max l = Some m → m ∈ l.
Proof.
  destruct l as [|x l]; [done|]. simpl. intros [= <-].
  induction l as [|y l IH]; simpl.
  - apply list_elem_of_here.
  - destruct (Z.max_spec y (foldr Z.max x l)) as [[_ ->]|[_ ->]].
    + apply elem_of_cons in IH as [IH|IH].
      * rewrite IH. apply list_elem_of_here.
      * do 2 apply list_elem_of_further. done.
    + apply list_elem_of_further, list_elem_of_here.
Qed.

Lemma sql_max_upper_bound (l : list Z) (m x : Z) :
  sql_max l = Some m → x ∈ l → x ≤ m.
Proof.
  destruct l as [|y l]; [done|]. simpl. intros [= <-].
  revert x. induction l as [|z l IH]; simpl; intros x Hx.
  - apply list_elem_of_singleton in Hx. lia.
  - apply elem_of_cons in Hx as [->|Hx].
    + assert (y ≤ foldr Z.max y l) by (apply IH, list_elem_of_here). lia.
    + apply elem_of_cons in Hx as [->|Hx]; [lia|].
      assert (x ≤ foldr Z.max y l) by (apply IH, list_elem_of_further, Hx). lia.
Qed.

Lemma sql_min_lower_bound (l : list Z) (m x : Z) :
  sql_min l = Some m → x ∈ l → m ≤ x.
Proof.
  destruct l as [|y l]; [done|]. simpl. intros [= <-].
  revert x. induction l as [|z l IH]; simpl; intros x Hx.
  - apply list_elem_of_singleton in Hx. lia.
  - apply elem_of_cons in Hx as [->|Hx].
    + assert (foldr Z.min y l ≤ y) by (apply IH, list_elem_of_here). lia.
    + apply elem_of_cons in Hx as [->|Hx]; [lia|].
      assert (foldr Z.min y l ≤ x) by (apply IH, list_elem_of_further, Hx). lia.
Qed.

Lemma sql_max_is_Some (l : list Z) (x : Z) : x ∈ l → is_Some (sql_max l).
Proof. destruct l; [by intros ?%elem_of_nil | by eexists]. Qed.

Lemma sql_min_is_Some (l : list Z) (x : Z) : x ∈ l → is_Some (sql_min l).
Proof. destruct l; [by intros ?%elem_of_nil | by eexists]. Qed.

Section PointInTimeJoinProperties.

Variable cast_timestamp : Z → string.
Variable tables : string → list SourceRow.

Lemma elem_of_fv_entity_dataframe fv (ents : list EntityRow) (ve : ViewEntityRow) :
  ve ∈ fv_entity_dataframe cast_timestamp fv ents
  ↔ ∃ e, ve = view_entity_row cast_timestamp fv e ∧ e ∈ ents.
Proof.
  unfold fv_entity_dataframe.
  by rewrite elem_of_remove_dups, list_elem_of_fmap.
Qed.

Lemma elem_of_range_join fv (sub : list SourceRow) (ents : list EntityRow) (r : BaseRow) :
  r ∈ range_join cast_timestamp fv sub ents
  ↔ ∃ s e, s ∈ sub ∧ e ∈ ents
           ∧ join_cond fv s (view_entity_row cast_timestamp fv e)
           ∧ r = {| b_src := s;
                    b_entity_timestamp := er_event_timestamp e;
                    b_entity_row_unique_id := entity_row_unique_id cast_timestamp fv e |}.
Proof.
  unfold range_join. rewrite list_elem_of_bind. split.
  - intros (s & Hr & Hs).
    apply list_elem_of_bind in Hr as (ve & Hr & Hve).
    apply list_elem_of_singleton in Hr.
    apply list_elem_of_filter in Hve as [Hcond Hve].
    apply elem_of_fv_entity_dataframe in Hve as (e & -> & He).
    by exists s, e.
  - intros (s & e & Hs & He & Hcond & ->).
    exists s. split; [|done].
    apply list_elem_of_bind. exists (view_entity_row cast_timestamp fv e). split.
    + by apply list_elem_of_singleton.
    + apply list_elem_of_filter. split; [done|].
      apply elem_of_fv_entity_dataframe. by exists e.
Qed.




Lemma entity_row_unique_id_timestamp fv (e e' : EntityRow) :
  self_delimiting cast_timestamp →
  entity_row_unique_id cast_timestamp fv e = entity_row_unique_id cast_timestamp fv e' →
  er_event_timestamp e = er_event_timestamp e'.
Proof.
  unfold entity_row_unique_id. rewrite !CONCAT_snoc. intros Hsd Hid.
  exact (Hsd _ _ _ _ Hid).
Qed.


Lemma elem_of_left_join_view fv (cleaned : list BaseRow) (rows : list OutputRow)
    (o' : OutputRow) :
  o' ∈ left_join_view cast_timestamp fv cleaned rows
  ↔ ∃ o slot, o ∈ rows
      ∧ slot_of cast_timestamp fv cleaned (o_entity o) slot
      ∧ o' = {| o_entity := o_entity o; o_features := o_features o ++ [slot] |}.
Proof.
  unfold left_join_view. rewrite list_elem_of_bind. split.
  - intros (o & Ho' & Ho). exists o.
    destruct (filter _ cleaned) as [|c0 matches] eqn:Hm.
    + apply list_elem_of_singleton in Ho'. exists None.
      split; [exact Ho|]. split; [|exact Ho'].
      intros c Hc Hid. exact (filter_nil_not_elem_of _ cleaned c Hm Hid Hc).
    + apply list_elem_of_fmap in Ho' as (c & Ho' & Hc).
      exists (Some (feature_values (b_src c))).
      split; [exact Ho|]. split; [|exact Ho'].
      rewrite <-Hm in Hc. apply list_elem_of_filter in Hc as [Hid Hc].
      exists c. split; [exact Hc|]. split; [exact Hid|reflexivity].
  - intros (o & slot & Ho & Hslot & Ho'). exists o. split; [|exact Ho].
    destruct slot as [vals|]; simpl in Hslot.
    + destruct Hslot as (c & Hc & Hid & Hvals).
      assert (c ∈ filter (λ c, b_entity_row_unique_id c
                = entity_row_unique_id cast_timestamp fv (o_entity o)) cleaned) as Hin.
      { apply list_elem_of_filter. split; [exact Hid|exact Hc]. }
      destruct (filter _ cleaned) as [|c0 matches]; [by apply elem_of_nil in Hin|].
      apply list_elem_of_fmap. exists c. split; [|exact Hin].
      rewrite Ho', Hvals. reflexivity.
    + destruct (filter _ cleaned) as [|c0 matches] eqn:Hm.
      * apply list_elem_of_singleton. exact Ho'.
      * exfalso. assert (c0 ∈ c0 :: matches) as Hin by apply list_elem_of_here.
        rewrite <-Hm in Hin. apply list_elem_of_filter in Hin as [Hid Hc].
        exact (Hslot c0 Hc Hid).
Qed.

Lemma elem_of_left_joins (fvs pre : list FeatureViewQueryContext) (ents : list EntityRow)
    (rows : list OutputRow) (o' : OutputRow) :
  (∀ o, o ∈ rows → slots_of cast_timestamp tables pre ents o) →
  o' ∈ left_joins cast_timestamp tables fvs ents rows →
  (∃ o, o ∈ rows ∧ o_entity o' = o_entity o) ∧ slots_of cast_timestamp tables (pre ++ fvs) ents o'.
Proof.
  revert pre rows. induction fvs as [|fv fvs IH]; intros pre rows Hrows Ho'.
  - simpl in Ho'. rewrite app_nil_r. split; [by exists o'|by apply Hrows].
  - unfold left_joins in Ho'. simpl in Ho'.
    apply (IH (pre ++ [fv])) in Ho' as [(o1 & Ho1 & He) Hslots].
    + apply elem_of_left_join_view in Ho1 as (o & slot & Ho & Hslot & Ho1).
      rewrite <-app_assoc in Hslots. split; [|exact Hslots].
      exists o. split; [exact Ho|]. rewrite He, Ho1. reflexivity.
    + intros o1 (o & slot & Ho & Hslot & ->)%elem_of_left_join_view.
      unfold slots_of. simpl. apply Forall2_app; [by apply Hrows|].
      by apply Forall2_cons.
Qed.


Lemma elem_of_point_in_time_join (fvs : list FeatureViewQueryContext)
    (ents : list EntityRow) (o : OutputRow) :
  o ∈ point_in_time_join cast_timestamp tables fvs ents →
  o_entity o ∈ ents ∧ slots_of cast_timestamp tables fvs ents o.
Proof.
  unfold point_in_time_join. intros Ho.
  apply (elem_of_left_joins fvs []) in Ho as [(o0 & Ho0 & He) Hslots].
  - split; [|exact Hslots].
    apply list_elem_of_fmap in Ho0 as (e & -> & Hin). rewrite He. exact Hin.
  - intros o0 (e & -> & _)%list_elem_of_fmap. apply Forall2_nil_2.
Qed.









(** *** The prefilter *)

Lemma prefilter_keeps fv (ents : list EntityRow) (s : SourceRow) (e : EntityRow) :
  s ∈ tables (table_subquery fv) →
  e ∈ ents →
  join_cond fv s (view_entity_row cast_timestamp fv e) →
  s ∈ fv_subquery tables fv ents.
Proof.
  intros Hs He (Hle & Httl & _). unfold fv_subquery.
  assert (er_event_timestamp e ∈ er_event_timestamp <$> ents) as Hin.
  { apply list_elem_of_fmap. exists e. split; [reflexivity|exact He]. }
  unfold max_entity_timestamp_, min_entity_timestamp_.
  destruct (sql_max_is_Some _ _ Hin) as [mx Hmx].
  destruct (sql_min_is_Some _ _ Hin) as [mn Hmn].
  rewrite Hmx, Hmn. simpl.
  apply list_elem_of_filter. split; [|exact Hs].
  pose proof (sql_max_upper_bound _ _ _ Hmx Hin) as Hub.
  pose proof (sql_min_lower_bound _ _ _ Hmn Hin) as Hlb.
  unfold ttl_entity_timestamp in Httl. simpl in *.
  split; [lia|]. destruct Httl as [Hz|Hge]; [by left|right; lia].
Qed.

Lemma bind_filter_skip {A B} (P : A → Prop) `{∀ x, Decision (P x)}
    (f : A → list B) (l : list A) :
  (∀ x, x ∈ l → ¬ P x → f x = []) →
  filter P l ≫= f = l ≫= f.
Proof.
  induction l as [|x l IH]; intros Hskip; [reflexivity|].
  rewrite filter_cons, bind_cons.
  assert (filter P l ≫= f = l ≫= f) as IH'.
  { apply IH. intros y Hy. apply Hskip. by apply list_elem_of_further. }
  destruct (decide (P x)) as [HP|HP].
  - by rewrite bind_cons, IH'.
  - rewrite IH', (Hskip x); [reflexivity|apply list_elem_of_here|exact HP].
Qed.

Lemma bind_nil_fun {A B} (f : A → list B) (l : list A) :
  (∀ x, x ∈ l → f x = []) → l ≫= f = [].
Proof.
  induction l as [|x l IH]; intros Hf; [reflexivity|].
  rewrite bind_cons, (Hf x) by apply list_elem_of_here.
  apply IH. intros y Hy. apply Hf. by apply list_elem_of_further.
Qed.

(** The range join gives the same rows on the prefiltered source. *)
Lemma fv_base_prefilter fv (ents : list EntityRow) :
  fv_base cast_timestamp tables fv ents = fv_base_exact cast_timestamp tables fv ents.
Proof.
  unfold fv_base, fv_base_exact, range_join.
  destruct ents as [|e0 ents'] eqn:Hents.
  - unfold fv_subquery. simpl. symmetry. apply bind_nil_fun. intros s _. reflexivity.
  - rewrite <-Hents.
    assert (∃ mx mn, max_entity_timestamp_ ents = Some mx
                     ∧ min_entity_timestamp_ fv ents = Some mn) as (mx & mn & Hmx & Hmn).
    { rewrite Hents. unfold max_entity_timestamp_, min_entity_timestamp_. simpl.
      eexists _, _. split; reflexivity. }
    assert (fv_subquery tables fv ents
            = filter (prefilter_cond fv mx mn) (tables (table_subquery fv))) as Hsub.
    { unfold fv_subquery. by rewrite Hmx, Hmn. }
    rewrite Hsub. apply bind_filter_skip. intros s Hs Hnot.
    apply bind_nil_fun. intros ve [Hcond Hve]%list_elem_of_filter.
    apply elem_of_fv_entity_dataframe in Hve as (e & -> & He).
    pose proof (prefilter_keeps fv ents s e Hs He Hcond) as Hkept.
    rewrite Hsub in Hkept. apply list_elem_of_filter in Hkept as [Hp _].
    destruct (Hnot Hp).
Qed.

(** C5. The prefilter keeps every source row that satisfies the exact
    join condition with some row of the entity dataframe, and the cleaned
    result of the plan with the prefilter is the cleaned result of the plan
    without it. *)
Theorem prefilter_sound (fv : FeatureViewQueryContext) (ents : list EntityRow) :
  (∀ s e,
     s ∈ tables (table_subquery fv) →
     e ∈ ents →
     join_cond fv s (view_entity_row cast_timestamp fv e) →
     s ∈ fv_subquery tables fv ents)
  ∧ fv_cleaned cast_timestamp tables fv ents
    = fv_cleaned_exact cast_timestamp tables fv ents.
Proof.
  split.
  - intros s e. apply prefilter_keeps.
  - unfold fv_cleaned, fv_cleaned_exact. by rewrite fv_base_prefilter.
Qed.


(** *** The chain of left joins, row by row *)

Lemma left_joins_app (fvs : list FeatureViewQueryContext) (ents : list EntityRow)
    (r1 r2 : list OutputRow) :
  left_joins cast_timestamp tables fvs ents (r1 ++ r2)
  = left_joins cast_timestamp tables fvs ents r1
    ++ left_joins cast_timestamp tables fvs ents r2.
Proof.
  revert r1 r2. induction fvs as [|fv fvs IH]; intros r1 r2; [reflexivity|].
  unfold left_joins in *. simpl. unfold left_join_view at 2.
  rewrite bind_app. apply IH.
Qed.











Lemma left_joins_cons (fv : FeatureViewQueryContext)
    (fvs : list FeatureViewQueryContext) (ents : list EntityRow) (rows : list OutputRow) :
  left_joins cast_timestamp tables (fv :: fvs) ents rows
  = left_joins cast_timestamp tables fvs ents
      (left_join_view cast_timestamp fv (fv_cleaned cast_timestamp tables fv ents) rows).
Proof. reflexivity. Qed.







End PointInTimeJoinProperties.

(** * The sample rendering is self-delimiting *)

Lemma occurs_app_r (c : ascii) (p q : string) : occurs c q → occurs c (p +:+ q).
Proof.
  induction p as [|c' p IH]; [done|]. rewrite string_app_cons. simpl. auto.
Qed.

(** A marker in front of bodies that never hold it delimits them. *)
Lemma marker_self_delimiting (m : ascii) (body : Z → string) :
  (∀ t t', body t = body t' → t = t') →
  (∀ t, ¬ occurs m (body t)) →
  self_delimiting (λ t, String m (body t)).
Proof.
  intros Hinj Hfree a. induction a as [|c a IH]; intros [|c' b] t t' Heq.
  - injection Heq as Heq. by apply Hinj.
  - rewrite string_app_cons in Heq. injection Heq as _ Heq.
    destruct (Hfree t). rewrite Heq. apply occurs_app_r. simpl. by left.
  - rewrite string_app_cons in Heq. injection Heq as _ Heq.
    destruct (Hfree t'). rewrite <-Heq. apply occurs_app_r. simpl. by left.
  - rewrite !string_app_cons in Heq. injection Heq as _ Heq. by eapply IH.
Qed.

Lemma pretty_N_go_free (m : ascii) (x : N) (s : string) :
  (∀ d, (d < 10)%N → m ≠ pretty_N_char d) →
  ¬ occurs m s → ¬ occurs m (pretty_N_go x s).
Proof.
  intros Hm. revert s. induction (N.lt_wf_0 x) as [x _ IH]; intros s Hs.
  destruct (decide (x = 0%N)) as [->|Hx].
  - by rewrite pretty_N_go_0.
  - rewrite pretty_N_go_step by lia. apply IH.
    + apply N.div_lt; lia.
    + simpl. intros [Hc|Hc]; [|done].
      apply (Hm (x `mod` 10)%N); [|done]. apply N.mod_lt. lia.
Qed.

Lemma pretty_Z_free (z : Z) : ¬ occurs "@" (pretty z).
Proof.
  assert (∀ d, (d < 10)%N → "@"%char ≠ pretty_N_char d) as Hd.
  { intros d _. unfold pretty_N_char. by repeat case_match. }
  assert (∀ p : positive, ¬ occurs "@" (pretty p)) as Hp.
  { intros p. unfold pretty, pretty_positive, pretty, pretty_N.
    case_decide; [done|]. apply pretty_N_go_free; [done|]. simpl. tauto. }
  destruct z as [|p|p]; unfold pretty, pretty_Z.
  - simpl. intros [?|[]]; done.
  - apply Hp.
  - change ("-" +:+ pretty p) with (String "-" (pretty p)). simpl.
    intros [?|?]; [done|]. by apply (Hp p).
Qed.

Lemma epoch_micros_self_delimiting : self_delimiting epoch_micros.
Proof.
  apply marker_self_delimiting.
  - intros t t'. apply (inj pretty).
  - apply pretty_Z_free.
Qed.

(** * The scenarios *)







(** C3 fails on the code.  The late correction of the event of day 5 was
    created after the row of day 9: [<view>__latest] pairs the greatest event timestamp with the
    greatest created timestamp of the whole group, no row of the base has
    both, and the entity row keeps NULLs although two candidates satisfy the
    join condition. *)
Lemma latest_selection_loses_candidates :
  fv_base epoch_micros sample_tables view_L [entity_late]
  = [ {| b_src := source_row (day 5) (day 100) [1] [10];
         b_entity_timestamp := day 200;
         b_entity_row_unique_id := entity_row_unique_id epoch_micros view_L entity_late |};
      {| b_src := source_row (day 9) (day 50) [1] [20];
         b_entity_timestamp := day 200;
         b_entity_row_unique_id := entity_row_unique_id epoch_micros view_L entity_late |} ]
  ∧ fv_latest view_L (fv_base epoch_micros sample_tables view_L [entity_late])
    = [ {| l_entity_row_unique_id := entity_row_unique_id epoch_micros view_L entity_late;
           l_event_timestamp := day 9;
           l_created_timestamp := Some (day 100) |} ]
  ∧ fv_cleaned epoch_micros sample_tables view_L [entity_late] = []
  ∧ point_in_time_join epoch_micros sample_tables [view_L] [entity_late]
    = [ {| o_entity := entity_late; o_features := [None] |} ].
Proof. vm_compute. repeat split; reflexivity. Qed.

(** C6 fails on the code.  Key values (1, 23) and (12, 3) concatenate to
    the same string: the two entity rows differ in their key combination
    and get the same id, whatever the rendering of timestamps. *)
Lemma entity_row_unique_id_collides (cast_timestamp : Z → string) (ts : Z) :
  key_values view_P (entity_row [("driver_id", 1); ("customer_id", 23)] ts)
  ≠ key_values view_P (entity_row [("driver_id", 12); ("customer_id", 3)] ts)
  ∧ entity_row_unique_id cast_timestamp view_P
      (entity_row [("driver_id", 1); ("customer_id", 23)] ts)
    = entity_row_unique_id cast_timestamp view_P
        (entity_row [("driver_id", 12); ("customer_id", 3)] ts).
Proof. split; [discriminate|reflexivity]. Qed.

(** What the collision does to the output: the entity row (1, 23), which no
    source row of view P matches, gets the feature values of (12, 3). *)
Lemma collision_leaks_features :
  (∀ s, s ∈ sample_tables (table_subquery view_P) →
        ¬ join_cond view_P s (view_entity_row epoch_micros view_P pair_1_23))
  ∧ point_in_time_join epoch_micros sample_tables [view_P] [pair_1_23; pair_12_3]
    = [ {| o_entity := pair_1_23; o_features := [Some [VInt 7]] |};
        {| o_entity := pair_12_3; o_features := [Some [VInt 7]] |} ].
Proof.
  split; [|vm_compute; reflexivity].
  apply Forall_forall. by_evaluation.
Qed.

(** * Column naming *)

Lemma elem_of_feature_columns (full_feature_names : bool) (fv : FeatureViewQueryContext)
    (c : Column) :
  c ∈ feature_columns full_feature_names fv
  ↔ ∃ f, f ∈ features fv
         ∧ c = {| c_origin := Feature (name fv) f;
                  c_name := feature_alias full_feature_names fv f |}.
Proof.
  unfold feature_columns. rewrite list_elem_of_fmap. split.
  - intros (f & -> & Hf). by exists f.
  - intros (f & Hf & ->). by exists f.
Qed.

(** The columns of feature origin among the candidates of the final
    select are the feature columns of the views. *)
Lemma feature_origin_columns (full_feature_names : bool) (entity_df_columns : list string)
    (featureviews : list FeatureViewQueryContext) (c : Column) (v f : string) :
  c ∈ entity_dataframe_columns entity_df_columns featureviews
        ++ (featureviews ≫= joined_columns full_feature_names) →
  c_origin c = Feature v f →
  ∃ fv, fv ∈ featureviews ∧ name fv = v ∧ f ∈ features fv
        ∧ c_name c = feature_alias full_feature_names fv f.
Proof.
  intros Hc Horigin. apply elem_of_app in Hc as [Hc|Hc].
  - unfold entity_dataframe_columns in Hc.
    apply elem_of_app in Hc as [Hc|Hc].
    + apply list_elem_of_fmap in Hc as (x & -> & _). discriminate.
    + apply elem_of_app in Hc as [Hc|Hc].
      * apply list_elem_of_singleton in Hc. subst c. discriminate.
      * apply list_elem_of_fmap in Hc as (x & -> & _). discriminate.
  - apply list_elem_of_bind in Hc as (fv & Hc & Hfv).
    unfold joined_columns in Hc. apply elem_of_cons in Hc as [->|Hc]; [discriminate|].
    apply elem_of_feature_columns in Hc as (f' & Hf' & ->).
    simpl in Horigin. injection Horigin as Hv Hf. subst f'.
    exists fv. by repeat split.
Qed.

(** C8. With [full_feature_names] every feature column of the final output
    is named "{view}__{feature}" and without it by the bare feature name:
    a column of the final select that holds feature [f] of view [v] has
    that name; every feature of every view whose such name the select
    expression admits is a column of the output; and the names the
    [<view>__joined] subquery selects are columns of [<view>__cleaned]. *)
Theorem feature_column_naming (selects : string → bool) (full_feature_names : bool)
    (entity_df_columns : list string) (featureviews : list FeatureViewQueryContext) :
  (∀ c v f,
     c ∈ final_columns selects full_feature_names entity_df_columns featureviews →
     c_origin c = Feature v f →
     c_name c = if full_feature_names then v +:+ "__" +:+ f else f)
  ∧ (∀ fv f,
       fv ∈ featureviews →
       f ∈ features fv →
       selects (feature_alias full_feature_names fv f) →
       {| c_origin := Feature (name fv) f;
          c_name := if full_feature_names then name fv +:+ "__" +:+ f else f |}
         ∈ final_columns selects full_feature_names entity_df_columns featureviews)
  ∧ (∀ fv c,
       c ∈ joined_columns full_feature_names fv →
       c ∈ base_columns full_feature_names fv).
Proof.
  split; [|split].
  - intros c v f [_ Hc]%list_elem_of_filter Horigin.
    destruct (feature_origin_columns _ _ _ _ _ _ Hc Horigin) as (fv & _ & <- & _ & ->).
    reflexivity.
  - intros fv f Hfv Hf Hsel. apply list_elem_of_filter. split; [exact Hsel|].
    apply elem_of_app. right. apply list_elem_of_bind. exists fv. split; [|exact Hfv].
    unfold joined_columns. apply list_elem_of_further.
    apply elem_of_feature_columns. exists f. split; [exact Hf|reflexivity].
  - intros fv c Hc. unfold base_columns, subquery_columns.
    unfold joined_columns in Hc. apply elem_of_cons in Hc as [->|Hc].
    + apply elem_of_app. right. apply list_elem_of_further, list_elem_of_here.
    + apply elem_of_app. left. rewrite !elem_of_app. auto.
Qed.

(** * Source descriptors *)

Section SourceRoundTrip.

Variable bytes : Type.
Variable pickle_dumps : Source.SparkOptions → bytes.
Variable pickle_loads : bytes → Source.result Source.SparkOptions.
Variable DataSource_column : option string → option string.
Variable DataSource_field_mapping : option (gmap string string) → gmap string string.

(** Unpickling what was pickled gives the object back. *)
Hypothesis pickle_round_trip : ∀ o, pickle_loads (pickle_dumps o) = Source.Ok o.

(** The base class leaves a string in a column-name attribute, and leaves a
    string that it left there as it is. *)
Hypothesis DataSource_column_string :
  ∀ a, ∃ s, DataSource_column a = Some s ∧ DataSource_column (Some s) = Some s.

(** The base class leaves a mapping that it left in [field_mapping] as it
    is. *)
Hypothesis DataSource_field_mapping_kept :
  ∀ a, DataSource_field_mapping (Some (DataSource_field_mapping a))
       = DataSource_field_mapping a.

Lemma SparkOptions_round_trip (o : Source.SparkOptions) :
  Source.SparkOptions_from_proto bytes pickle_loads
    (Source.SparkOptions_to_proto bytes pickle_dumps o)
  = Source.Ok o.
Proof.
  unfold Source.SparkOptions_from_proto, Source.SparkOptions_to_proto. simpl.
  rewrite pickle_round_trip. simpl. by destruct o.
Qed.

(** C7. Serializing a source descriptor and deserializing the result gives
    an equal descriptor, for every descriptor the constructor builds, of
    table kind or of query kind: neither conversion raises, and table,
    query, the timestamp columns, the date partition column and the field
    mapping are those of the descriptor. *)
Theorem from_proto_to_proto (table query : option string)
    (event_timestamp_column created_timestamp_column : option string)
    (field_mapping : option (gmap string string))
    (date_partition_column : option string) :
  Source.bind
    (Source.to_proto bytes pickle_dumps
       (Source.SparkSource_init DataSource_column DataSource_field_mapping
          table query event_timestamp_column created_timestamp_column
          field_mapping date_partition_column))
    (Source.from_proto bytes pickle_loads DataSource_column DataSource_field_mapping)
  = Source.Ok
      (Source.SparkSource_init DataSource_column DataSource_field_mapping
         table query event_timestamp_column created_timestamp_column
         field_mapping date_partition_column).
Proof.
  unfold Source.SparkSource_init, Source.to_proto. simpl.
  destruct (DataSource_column_string event_timestamp_column) as (ets & -> & Hets).
  destruct (DataSource_column_string created_timestamp_column) as (cts & -> & Hcts).
  destruct (DataSource_column_string date_partition_column) as (dpc & -> & Hdpc).
  simpl. unfold Source.from_proto. simpl.
  rewrite SparkOptions_round_trip. simpl.
  unfold Source.SparkSource_init. simpl.
  by rewrite Hets, Hcts, Hdpc, DataSource_field_mapping_kept.
Qed.

End SourceRoundTrip.

Lemma sample_column_string (a : option string) :
  ∃ s, sample_column a = Some s ∧ sample_column (Some s) = Some s.
Proof.
  destruct a as [s|]; [|by exists ""].
  unfold sample_column. simpl. destruct (decide (s = "")) as [->|Hs].
  - by exists "".
  - exists s. simpl. by rewrite decide_False.
Qed.

Lemma from_proto_to_proto_witness :
  Source.bind
    (Source.to_proto Source.SparkOptions sample_dumps
       (Source.SparkSource_init sample_column sample_field_mapping
          None (Some "SELECT * FROM driver_stats") (Some "ts") None
          (Some {[ "driver" := "driver_id" ]}) None))
    (Source.from_proto Source.SparkOptions sample_loads sample_column sample_field_mapping)
  = Source.Ok
      (Source.SparkSource_init sample_column sample_field_mapping
         None (Some "SELECT * FROM driver_stats") (Some "ts") None
         (Some {[ "driver" := "driver_id" ]}) None).
Proof.
  apply (from_proto_to_proto Source.SparkOptions sample_dumps sample_loads
           sample_column sample_field_mapping).
  - reflexivity.
  - exact sample_column_string.
  - reflexivity.
Defined.

(** Schema discovery reads [self.table] alone.  For a descriptor of table
    kind it raises the source-not-found error that names the table exactly
    when the catalog has no such relation, and returns the (name, type)
    pairs of the relation otherwise. *)
Lemma schema_discovery_of_table (table_of_None : Source.exn)
    (catalog : gmap string (list Source.StructField)) (d : Source.SparkSource) (t : string) :
  Source.table d = Some t →
  (catalog !! t = None
   ↔ Source.get_table_column_names_and_types table_of_None catalog d
     = Source.Raise (Source.DataSourceNotFoundException (Some t)))
  ∧ (∀ fields, catalog !! t = Some fields →
       Source.get_table_column_names_and_types table_of_None catalog d
       = Source.Ok ((λ f, (Source.sf_name f, Source.sf_type f)) <$> fields)).
Proof.
  intros Ht. unfold Source.get_table_column_names_and_types, Source.session_table_fields.
  rewrite Ht. destruct (catalog !! t) as [fields|]; split.
  - split; discriminate.
  - by intros ? [= <-].
  - done.
  - discriminate.
Qed.

Lemma schema_discovery_of_table_witness :
  (({[ "driver_stats" := [ {| Source.sf_name := "driver_id";
                              Source.sf_type := "long";
                              Source.sf_nullable := true |} ] ]}
      : gmap string (list Source.StructField)) !! "driver_stats" = None
   ↔ Source.get_table_column_names_and_types Source.Py4JJavaError
       {[ "driver_stats" := [ {| Source.sf_name := "driver_id";
                                 Source.sf_type := "long";
                                 Source.sf_nullable := true |} ] ]}
       (Source.SparkSource_init sample_column sample_field_mapping
          (Some "driver_stats") None (Some "ts") None None None)
     = Source.Raise (Source.DataSourceNotFoundException (Some "driver_stats")))
  ∧ (∀ fields,
       ({[ "driver_stats" := [ {| Source.sf_name := "driver_id";
                                  Source.sf_type := "long";
                                  Source.sf_nullable := true |} ] ]}
          : gmap string (list Source.StructField)) !! "driver_stats" = Some fields →
       Source.get_table_column_names_and_types Source.Py4JJavaError
         {[ "driver_stats" := [ {| Source.sf_name := "driver_id";
                                   Source.sf_type := "long";
                                   Source.sf_nullable := true |} ] ]}
         (Source.SparkSource_init sample_column sample_field_mapping
            (Some "driver_stats") None (Some "ts") None None None)
       = Source.Ok ((λ f, (Source.sf_name f, Source.sf_type f)) <$> fields)).
Proof.
  apply (schema_discovery_of_table Source.Py4JJavaError _
           (Source.SparkSource_init sample_column sample_field_mapping
              (Some "driver_stats") None (Some "ts") None None None)
           "driver_stats").
  reflexivity.
Defined.

(** C9 fails on the code for descriptors of query kind.  A descriptor of
    query kind has no table: whatever the catalog holds,
    and whatever [spark_session.table(None)] raises, schema discovery
    returns no schema, and the query is never read. *)
Lemma schema_discovery_of_query (table_of_None : Source.exn)
    (catalog : gmap string (list Source.StructField)) (q q' : string)
    (DataSource_column : option string → option string)
    (DataSource_field_mapping : option (gmap string string) → gmap string string) :
  (∃ e, Source.get_table_column_names_and_types table_of_None catalog
          (Source.SparkSource_init DataSource_column DataSource_field_mapping
             None (Some q) None None None None)
        = Source.Raise e)
  ∧ Source.get_table_column_names_and_types table_of_None catalog
      (Source.SparkSource_init DataSource_column DataSource_field_mapping
         None (Some q) None None None None)
    = Source.get_table_column_names_and_types table_of_None catalog
        (Source.SparkSource_init DataSource_column DataSource_field_mapping
           None (Some q') None None None None).
Proof.
  split; [|reflexivity].
  unfold Source.get_table_column_names_and_types. simpl.
  destruct table_of_None; by eexists.
Qed.

(** * pull_latest_from_table_or_query *)

Section PullLatestProperties.

Import PullLatest.

Variable tables : string → list SourceRow.

Lemma feast_row_1_elem (q : Query) (partition : list SourceRow) (r : SourceRow) :
  feast_row_1 q partition = Some r → r ∈ partition.
Proof.
  revert r. induction partition as [|r0 rest IH]; intros r; simpl; [discriminate|].
  destruct (feast_row_1 q rest) as [r'|].
  - destruct (decide (sorts_before q r' r0)); intros [= <-].
    + apply list_elem_of_further. by apply IH.
    + apply list_elem_of_here.
  - intros [= <-]. apply list_elem_of_here.
Qed.




Lemma run_NoDup_keys (q : Query) : NoDup (partition_key q <$> run tables q).
Proof.
  unfold run.
  set (t1 := filter (in_window q) (tables (from_expression q))).
  generalize (NoDup_remove_dups (partition_key q <$> t1)).
  generalize (remove_dups (partition_key q <$> t1)). intros ks.
  induction ks as [|k ks IH]; intros Hks; [constructor|].
  apply NoDup_cons in Hks as [Hk Hks]. rewrite bind_cons, fmap_app.
  destruct (feast_row_1 q (filter (λ r, partition_key q r = k) t1)) as [r|] eqn:Hrow;
    [|by apply IH].
  pose proof (feast_row_1_elem _ _ _ Hrow) as [Hkey _]%list_elem_of_filter.
  simpl. apply NoDup_cons. split; [|by apply IH].
  rewrite Hkey. intros (r' & Hk' & Hr')%list_elem_of_fmap.
  apply list_elem_of_bind in Hr' as (k' & Hr' & Hin).
  destruct (feast_row_1 q (filter (λ r, partition_key q r = k') t1)) as [r0|] eqn:Hrow';
    [|by apply elem_of_nil in Hr'].
  apply list_elem_of_singleton in Hr'. subst r0.
  pose proof (feast_row_1_elem _ _ _ Hrow') as [Hkey' _]%list_elem_of_filter.
  apply Hk. by rewrite Hk', Hkey'.
Qed.


End PullLatestProperties.

(** * Latest selection, stage by stage *)

Lemma sql_max_fmap {A} (f : A → Z) (l : list A) (m : Z) :
  sql_max (f <$> l) = Some m →
  (∃ x, x ∈ l ∧ f x = m) ∧ (∀ x, x ∈ l → f x ≤ m).
Proof.
  intros Hm. split.
  - apply sql_max_elem in Hm. apply list_elem_of_fmap in Hm as (x & Hx & Hin).
    exists x. split; [exact Hin|]. symmetry. exact Hx.
  - intros x Hx. apply (sql_max_upper_bound _ _ _ Hm).
    apply list_elem_of_fmap. exists x. split; [reflexivity|exact Hx].
Qed.

Lemma sql_max_fmap_is_Some {A} (f : A → Z) (l : list A) (x : A) :
  x ∈ l → ∃ m, sql_max (f <$> l) = Some m.
Proof.
  intros Hx. apply (sql_max_is_Some _ (f x)).
  apply list_elem_of_fmap. exists x. split; [reflexivity|exact Hx].
Qed.

Lemma elem_of_fv_dedup (base : list BaseRow) (d : DedupRow) :
  d ∈ fv_dedup base
  ↔ ∃ r, r ∈ base
         ∧ d_entity_row_unique_id d = b_entity_row_unique_id r
         ∧ d_event_timestamp d = b_event_timestamp r
         ∧ sql_max (b_created_timestamp <$>
              filter (λ r', (b_entity_row_unique_id r', b_event_timestamp r')
                            = (b_entity_row_unique_id r, b_event_timestamp r)) base)
           = Some (d_created_timestamp d).
Proof.
  unfold fv_dedup. rewrite list_elem_of_bind. split.
  - intros (k & Hd & Hk).
    apply elem_of_remove_dups, list_elem_of_fmap in Hk as (r & Hk & Hr).
    exists r. rewrite <-Hk.
    destruct (sql_max _) as [c|] eqn:Hmax; [|by apply elem_of_nil in Hd].
    apply list_elem_of_singleton in Hd. rewrite Hd, Hk. simpl.
    split; [exact Hr|]. split; [reflexivity|]. split; reflexivity.
  - intros (r & Hr & Hid & Hts & Hmax).
    exists (b_entity_row_unique_id r, b_event_timestamp r). split.
    + rewrite Hmax. apply list_elem_of_singleton. destruct d. simpl in *.
      by rewrite Hid, Hts.
    + apply elem_of_remove_dups, list_elem_of_fmap. exists r. split; [reflexivity|exact Hr].
Qed.

(** With a created timestamp column, the rows [<view>__latest] reads are
    the rows of the base with the greatest created timestamp among those of
    their id and event timestamp. *)
Lemma elem_of_latest_from_created (fv : FeatureViewQueryContext) (base : list BaseRow)
    (r : BaseRow) :
  has_created fv = true →
  r ∈ latest_from fv base
  ↔ r ∈ base
    ∧ ∀ r', r' ∈ base →
            b_entity_row_unique_id r' = b_entity_row_unique_id r →
            b_event_timestamp r' = b_event_timestamp r →
            b_created_timestamp r' ≤ b_created_timestamp r.
Proof.
  intros Hc. unfold latest_from. rewrite Hc. rewrite list_elem_of_bind. split.
  - intros (r0 & Hr & Hr0).
    apply list_elem_of_bind in Hr as (d & Hr & Hd).
    apply list_elem_of_singleton in Hr. subst r0. split; [exact Hr0|].
    apply list_elem_of_filter in Hd as [(Hid & Hts & Hcr) Hd].
    apply elem_of_fv_dedup in Hd as (r1 & Hr1 & Hid1 & Hts1 & Hmax).
    intros r' Hr' Hid' Hts'. rewrite <-Hcr.
    apply (proj2 (sql_max_fmap _ _ _ Hmax)).
    apply list_elem_of_filter. split; [|exact Hr'].
    by rewrite Hid', Hts', <-Hid, <-Hts, Hid1, Hts1.
  - intros [Hr Hdom]. exists r. split; [|exact Hr].
    assert (r ∈ filter (λ r', (b_entity_row_unique_id r', b_event_timestamp r')
                            = (b_entity_row_unique_id r, b_event_timestamp r)) base) as Hin.
    { apply list_elem_of_filter. split; [reflexivity|exact Hr]. }
    destruct (sql_max_fmap_is_Some b_created_timestamp _ _ Hin) as [m Hmax].
    destruct (sql_max_fmap _ _ _ Hmax) as [(r1 & Hr1 & Hm) Hub].
    apply list_elem_of_filter in Hr1 as [[= Hid1 Hts1] Hr1].
    assert (m = b_created_timestamp r) as ->.
    { specialize (Hub r Hin). specialize (Hdom r1 Hr1 Hid1 Hts1). lia. }
    apply list_elem_of_bind.
    exists {| d_entity_row_unique_id := b_entity_row_unique_id r;
              d_event_timestamp := b_event_timestamp r;
              d_created_timestamp := b_created_timestamp r |}.
    split; [apply list_elem_of_here|].
    apply list_elem_of_filter. split; [by repeat split|].
    apply elem_of_fv_dedup. exists r. by repeat split.
Qed.

Lemma elem_of_latest_from_base (fv : FeatureViewQueryContext) (base : list BaseRow)
    (r : BaseRow) :
  r ∈ latest_from fv base → r ∈ base.
Proof.
  destruct (has_created fv) eqn:Hc.
  - by intros [? _]%elem_of_latest_from_created.
  - unfold latest_from. by rewrite Hc.
Qed.

(** Every row of the base has, among the rows [<view>__latest] reads, one
    of its id and event timestamp that was not created before it. *)
Lemma latest_from_representative (fv : FeatureViewQueryContext) (base : list BaseRow)
    (r : BaseRow) :
  r ∈ base →
  ∃ r0, r0 ∈ latest_from fv base
        ∧ b_entity_row_unique_id r0 = b_entity_row_unique_id r
        ∧ b_event_timestamp r0 = b_event_timestamp r
        ∧ b_created_timestamp r ≤ b_created_timestamp r0.
Proof.
  intros Hr. destruct (has_created fv) eqn:Hc.
  - assert (r ∈ filter (λ r', (b_entity_row_unique_id r', b_event_timestamp r')
                            = (b_entity_row_unique_id r, b_event_timestamp r)) base) as Hin.
    { apply list_elem_of_filter. split; [reflexivity|exact Hr]. }
    destruct (sql_max_fmap_is_Some b_created_timestamp _ _ Hin) as [m Hmax].
    destruct (sql_max_fmap _ _ _ Hmax) as [(r0 & Hr0 & Hm) Hub].
    pose proof Hr0 as Hr0'. apply list_elem_of_filter in Hr0 as [[= Hid0 Hts0] Hr0].
    exists r0. split; [|split; [exact Hid0|split; [exact Hts0|]]].
    + apply elem_of_latest_from_created; [exact Hc|]. split; [exact Hr0|].
      intros r' Hr' Hid' Hts'. rewrite Hm. apply Hub.
      apply list_elem_of_filter. split; [|exact Hr'].
      by rewrite Hid', Hts', Hid0, Hts0.
    + rewrite Hm. by apply Hub.
  - exists r. unfold latest_from. rewrite Hc. split; [exact Hr|]. split; [reflexivity|].
    split; [reflexivity|lia].
Qed.

(** The aggregates of [<view>__latest] for an id are the greatest event
    timestamp and the greatest created timestamp among all the rows of the
    base with that id. *)
Lemma latest_group_maxima (fv : FeatureViewQueryContext) (base : list BaseRow)
    (r : BaseRow) :
  r ∈ base →
  ∃ T C,
    sql_max (b_event_timestamp <$>
       filter (λ r', b_entity_row_unique_id r' = b_entity_row_unique_id r)
         (latest_from fv base)) = Some T
    ∧ sql_max (b_created_timestamp <$>
         filter (λ r', b_entity_row_unique_id r' = b_entity_row_unique_id r)
           (latest_from fv base)) = Some C
    ∧ (∃ r0, r0 ∈ base ∧ b_entity_row_unique_id r0 = b_entity_row_unique_id r
             ∧ b_event_timestamp r0 = T)
    ∧ (∃ r1, r1 ∈ base ∧ b_entity_row_unique_id r1 = b_entity_row_unique_id r
             ∧ b_created_timestamp r1 = C)
    ∧ (∀ r', r' ∈ base → b_entity_row_unique_id r' = b_entity_row_unique_id r →
             b_event_timestamp r' ≤ T ∧ b_created_timestamp r' ≤ C).
Proof.
  intros Hr.
  destruct (latest_from_representative fv base r Hr) as (r0 & Hr0 & Hid0 & _).
  assert (r0 ∈ filter (λ r', b_entity_row_unique_id r' = b_entity_row_unique_id r)
                 (latest_from fv base)) as Hin.
  { apply list_elem_of_filter. split; [exact Hid0|exact Hr0]. }
  destruct (sql_max_fmap_is_Some b_event_timestamp _ _ Hin) as [T HT].
  destruct (sql_max_fmap_is_Some b_created_timestamp _ _ Hin) as [C HC].
  exists T, C. split; [exact HT|]. split; [exact HC|].
  destruct (sql_max_fmap _ _ _ HT) as [(rT & HrT & HTeq) HTub].
  destruct (sql_max_fmap _ _ _ HC) as [(rC & HrC & HCeq) HCub].
  apply list_elem_of_filter in HrT as [HidT HrT]. apply elem_of_latest_from_base in HrT.
  apply list_elem_of_filter in HrC as [HidC HrC]. apply elem_of_latest_from_base in HrC.
  split; [by exists rT|]. split; [by exists rC|].
  intros r' Hr' Hid'.
  destruct (latest_from_representative fv base r' Hr') as (r'' & Hr'' & Hid'' & Hts'' & Hcr'').
  assert (r'' ∈ filter (λ x, b_entity_row_unique_id x = b_entity_row_unique_id r)
                  (latest_from fv base)) as Hin''.
  { apply list_elem_of_filter. split; [by rewrite Hid''|exact Hr'']. }
  pose proof (HTub r'' Hin''). pose proof (HCub r'' Hin''). lia.
Qed.

(** Filtering on a key the concatenation of groups that are keyed apart
    reads one group. *)
Lemma filter_bind_key {K A} `{EqDecision K} (key : A → K) (C : A → Prop)
    `{∀ a, Decision (C a)} (x : K) (ks : list K) (g : K → list A) :
  NoDup ks →
  (∀ k a, a ∈ g k → key a = k) →
  (∀ a, C a → key a = x) →
  x ∈ ks →
  filter C (ks ≫= g) = filter C (g x).
Proof.
  intros Hnd Hkey HC. 
  assert (∀ k, k ≠ x → filter C (g k) = []) as Hother.
  { intros k Hk. apply elem_of_nil_inv. intros a [Ha Hin]%list_elem_of_filter.
    apply Hk. by rewrite <-(Hkey k a Hin), (HC a Ha). }
  assert (∀ l, x ∉ l → filter C (l ≫= g) = []) as Hrest.
  { induction l as [|k l IH]; intros Hx; [reflexivity|].
    apply not_elem_of_cons in Hx as [Hne Hx].
    rewrite bind_cons, filter_app, IH by exact Hx.
    rewrite Hother by (intros ->; by apply Hne). reflexivity. }
  induction ks as [|k ks IH]; intros Hx; [by apply elem_of_nil in Hx|].
  apply NoDup_cons in Hnd as [Hk Hnd]. rewrite bind_cons, filter_app.
  destruct (decide (k = x)) as [->|Hne].
  - rewrite Hrest by exact Hk. apply app_nil_r.
  - rewrite Hother by exact Hne. apply elem_of_cons in Hx as [->|Hx]; [done|].
    by apply IH.
Qed.

Lemma bind_select {A} (P : A → Prop) `{∀ x, Decision (P x)} (f : A → list A)
    (l : list A) :
  (∀ x, x ∈ l → f x = if decide (P x) then [x] else []) →
  l ≫= f = filter P l.
Proof.
  induction l as [|x l IH]; intros Hf; [reflexivity|].
  rewrite bind_cons, filter_cons, (Hf x) by apply list_elem_of_here.
  rewrite IH by (intros y Hy; apply Hf; by apply list_elem_of_further).
  by destruct (decide (P x)).
Qed.

(** [<view>__cleaned] keeps, with their multiplicity and in their order,
    the rows of the base that are the latest of their id. *)
Lemma cleaned_of_latest_of (fv : FeatureViewQueryContext) (base : list BaseRow) :
  cleaned_of fv base = filter (latest_of fv base) base.
Proof.
  unfold cleaned_of. apply bind_select. intros r Hr.
  destruct (latest_group_maxima fv base r Hr)
    as (T & C & HT & HC & (rT & HrT & HidT & HTeq) & (rC & HrC & HidC & HCeq) & Hub).
  assert (filter (cleaned_cond fv r) (fv_latest fv base)
          = filter (cleaned_cond fv r)
              [ {| l_entity_row_unique_id := b_entity_row_unique_id r;
                   l_event_timestamp := T;
                   l_created_timestamp := if has_created fv then Some C else None |} ])
    as ->.
  { unfold fv_latest.
    rewrite (filter_bind_key l_entity_row_unique_id (cleaned_cond fv r)
               (b_entity_row_unique_id r)).
    - by rewrite HT, HC.
    - apply NoDup_remove_dups.
    - intros k l Hl. simpl in Hl. case_match; [|by apply elem_of_nil in Hl].
      apply list_elem_of_singleton in Hl. by rewrite Hl.
    - by intros l (Hid & _).
    - destruct (latest_from_representative fv base r Hr) as (r0 & Hr0 & Hid0 & _).
      apply elem_of_remove_dups, list_elem_of_fmap. exists r0. by split. }
  rewrite filter_cons, filter_nil.
  destruct (decide (latest_of fv base r)) as [Hl|Hl];
    destruct (decide (cleaned_cond fv r _)) as [Hc|Hc]; try reflexivity; exfalso.
  - apply Hc. unfold cleaned_cond. simpl. split; [reflexivity|].
    unfold latest_of in Hl. rewrite Forall_forall in Hl.
    destruct (Hl rT HrT HidT) as [HleT _]. destruct (Hub r Hr eq_refl) as [HrleT HrleC].
    split; [lia|]. intros Hcr. rewrite Hcr. f_equal.
    destruct (Hl rC HrC HidC) as [_ HleC]. specialize (HleC Hcr). lia.
  - apply Hl. unfold latest_of. apply Forall_forall. intros r' Hr' Hid'.
    destruct Hc as (_ & HtsT & Hcr). simpl in *.
    destruct (Hub r' Hr' Hid') as [HleT HleC]. split; [lia|].
    intros Hcreated. specialize (Hcr Hcreated). rewrite Hcreated in Hcr.
    injection Hcr as Hcr. lia.
Qed.


(** Without a created timestamp column every id that has a candidate
    row keeps a cleaned row, and that row has the greatest event timestamp
    among the candidates of the id. *)
Theorem latest_without_created (fv : FeatureViewQueryContext) (base : list BaseRow)
    (r : BaseRow) :
  has_created fv = false →
  r ∈ base →
  ∃ c, c ∈ cleaned_of fv base
       ∧ b_entity_row_unique_id c = b_entity_row_unique_id r
       ∧ ∀ r', r' ∈ base →
               b_entity_row_unique_id r' = b_entity_row_unique_id r →
               b_event_timestamp r' ≤ b_event_timestamp c.
Proof.
  intros Hc Hr.
  destruct (latest_group_maxima fv base r Hr)
    as (T & C & _ & _ & (c & Hcin & Hid & HT) & _ & Hub).
  exists c. rewrite cleaned_of_latest_of. split; [|split; [exact Hid|]].
  - apply list_elem_of_filter. split; [|exact Hcin].
    apply Forall_forall. intros r' Hr' Hid'. split.
    + rewrite HT. apply Hub; [exact Hr'|]. by rewrite Hid'.
    + rewrite Hc. discriminate.
  - intros r' Hr' Hid'. rewrite HT. by apply Hub.
Qed.

Lemma latest_without_created_witness :
  ∃ c, c ∈ cleaned_of view_W (fv_base epoch_micros sample_tables view_W [entity_2])
       ∧ b_entity_row_unique_id c
         = b_entity_row_unique_id
             {| b_src := source_row (day 9) 0 [2] [1];
                b_entity_timestamp := day 10;
                b_entity_row_unique_id := entity_row_unique_id epoch_micros view_W entity_2 |}
       ∧ ∀ r', r' ∈ fv_base epoch_micros sample_tables view_W [entity_2] →
               b_entity_row_unique_id r'
               = b_entity_row_unique_id
                   {| b_src := source_row (day 9) 0 [2] [1];
                      b_entity_timestamp := day 10;
                      b_entity_row_unique_id :=
                        entity_row_unique_id epoch_micros view_W entity_2 |} →
               b_event_timestamp r' ≤ b_event_timestamp c.
Proof.
  apply (latest_without_created view_W
           (fv_base epoch_micros sample_tables view_W [entity_2])
           {| b_src := source_row (day 9) 0 [2] [1];
              b_entity_timestamp := day 10;
              b_entity_row_unique_id := entity_row_unique_id epoch_micros view_W entity_2 |}).
  - reflexivity.
  - by_evaluation.
Defined.

(** With a created timestamp column, of two candidate rows of an id
    with the same event timestamp the one created earlier is never a cleaned
    row; the one created later is a cleaned row when it is the latest of
    the id. *)
Theorem created_tie_break (fv : FeatureViewQueryContext) (base : list BaseRow)
    (r1 r2 : BaseRow) :
  has_created fv = true →
  r1 ∈ base →
  r2 ∈ base →
  b_entity_row_unique_id r1 = b_entity_row_unique_id r2 →
  b_event_timestamp r1 = b_event_timestamp r2 →
  b_created_timestamp r1 < b_created_timestamp r2 →
  (r1 ∉ cleaned_of fv base)
  ∧ (latest_of fv base r2 → r2 ∈ cleaned_of fv base).
Proof.
  intros Hc Hr1 Hr2 Hid Hts Hlt. rewrite cleaned_of_latest_of. split.
  - intros [Hl _]%list_elem_of_filter. unfold latest_of in Hl.
    rewrite Forall_forall in Hl. destruct (Hl r2 Hr2 (eq_sym Hid)) as [_ Hle].
    specialize (Hle Hc). lia.
  - intros Hl. apply list_elem_of_filter. split; [exact Hl|exact Hr2].
Qed.

Lemma created_tie_break_witness :
  ({| b_src := source_row (day 9) (day 9) [1] [20];
      b_entity_timestamp := day 10;
      b_entity_row_unique_id := entity_row_unique_id epoch_micros view_A entity_1 |}
     ∉ cleaned_of view_A (fv_base epoch_micros sample_tables view_A [entity_1]))
  ∧ (latest_of view_A (fv_base epoch_micros sample_tables view_A [entity_1])
       {| b_src := source_row (day 9) (day 9 + 43200000000) [1] [21];
          b_entity_timestamp := day 10;
          b_entity_row_unique_id := entity_row_unique_id epoch_micros view_A entity_1 |} →
     {| b_src := source_row (day 9) (day 9 + 43200000000) [1] [21];
        b_entity_timestamp := day 10;
        b_entity_row_unique_id := entity_row_unique_id epoch_micros view_A entity_1 |}
       ∈ cleaned_of view_A (fv_base epoch_micros sample_tables view_A [entity_1])).
Proof.
  apply (created_tie_break view_A (fv_base epoch_micros sample_tables view_A [entity_1])).
  - reflexivity.
  - by_evaluation.
  - by_evaluation.
  - reflexivity.
  - reflexivity.
  - vm_compute. reflexivity.
Defined.

(** Two cleaned rows of the same id have the same event timestamp and,
    when a created timestamp column is declared, the same created
    timestamp: an id has several cleaned rows only through rows that tie on
    every timestamp the view declares. *)
Theorem cleaned_rows_tie (fv : FeatureViewQueryContext) (base : list BaseRow)
    (c1 c2 : BaseRow) :
  c1 ∈ cleaned_of fv base →
  c2 ∈ cleaned_of fv base →
  b_entity_row_unique_id c1 = b_entity_row_unique_id c2 →
  b_event_timestamp c1 = b_event_timestamp c2
  ∧ (has_created fv = true → b_created_timestamp c1 = b_created_timestamp c2).
Proof.
  rewrite cleaned_of_latest_of.
  intros [Hl1 Hc1]%list_elem_of_filter [Hl2 Hc2]%list_elem_of_filter Hid.
  unfold latest_of in *. rewrite Forall_forall in Hl1, Hl2.
  destruct (Hl1 c2 Hc2 (eq_sym Hid)) as [Hts1 Hcr1].
  destruct (Hl2 c1 Hc1 Hid) as [Hts2 Hcr2].
  split; [lia|]. intros Hc. specialize (Hcr1 Hc). specialize (Hcr2 Hc). lia.
Qed.

Lemma cleaned_rows_tie_witness :
  b_event_timestamp
    {| b_src := source_row (day 9) 0 [2] [1];
       b_entity_timestamp := day 10;
       b_entity_row_unique_id := entity_row_unique_id epoch_micros view_W entity_2 |}
  = b_event_timestamp
      {| b_src := source_row (day 9) 0 [2] [2];
         b_entity_timestamp := day 10;
         b_entity_row_unique_id := entity_row_unique_id epoch_micros view_W entity_2 |}
  ∧ (has_created view_W = true →
     b_created_timestamp
       {| b_src := source_row (day 9) 0 [2] [1];
          b_entity_timestamp := day 10;
          b_entity_row_unique_id := entity_row_unique_id epoch_micros view_W entity_2 |}
     = b_created_timestamp
         {| b_src := source_row (day 9) 0 [2] [2];
            b_entity_timestamp := day 10;
            b_entity_row_unique_id := entity_row_unique_id epoch_micros view_W entity_2 |}).
Proof.
  apply (cleaned_rows_tie view_W (fv_base epoch_micros sample_tables view_W [entity_2])).
  - by_evaluation.
  - by_evaluation.
  - reflexivity.
Defined.

(** * The merge, beyond the claims *)

Section MergeProperties.

Variable cast_timestamp : Z → string.
Variable tables : string → list SourceRow.






Lemma fv_entity_dataframe_duplicate fv (ents : list EntityRow) (e : EntityRow) :
  e ∈ ents →
  fv_entity_dataframe cast_timestamp fv (e :: ents)
  = fv_entity_dataframe cast_timestamp fv ents.
Proof.
  intros He. unfold fv_entity_dataframe. rewrite fmap_cons. simpl.
  destruct (decide_rel _ _ _) as [_|Hn]; [reflexivity|].
  destruct Hn. apply list_elem_of_fmap. exists e. split; [reflexivity|exact He].
Qed.

Lemma fv_cleaned_duplicate fv (ents : list EntityRow) (e : EntityRow) :
  e ∈ ents →
  fv_cleaned cast_timestamp tables fv (e :: ents)
  = fv_cleaned cast_timestamp tables fv ents.
Proof.
  intros He. unfold fv_cleaned. rewrite !fv_base_prefilter.
  unfold fv_base_exact, range_join. by rewrite fv_entity_dataframe_duplicate.
Qed.

Lemma left_joins_duplicate (fvs : list FeatureViewQueryContext) (ents : list EntityRow)
    (e : EntityRow) (rows : list OutputRow) :
  e ∈ ents →
  left_joins cast_timestamp tables fvs (e :: ents) rows
  = left_joins cast_timestamp tables fvs ents rows.
Proof.
  intros He. revert rows. induction fvs as [|fv fvs IH]; intros rows; [reflexivity|].
  by rewrite !left_joins_cons, fv_cleaned_duplicate, IH.
Qed.

(** A row that the entity dataframe lists once more changes no view's
    cleaned result; the output gains the output rows of that row a second
    time and is unchanged otherwise. *)
Theorem duplicate_entity_row (fvs : list FeatureViewQueryContext) (ents : list EntityRow)
    (e : EntityRow) :
  e ∈ ents →
  (∀ fv, fv_cleaned cast_timestamp tables fv (e :: ents)
         = fv_cleaned cast_timestamp tables fv ents)
  ∧ point_in_time_join cast_timestamp tables fvs (e :: ents)
    = output_rows_of cast_timestamp tables fvs ents e
      ++ point_in_time_join cast_timestamp tables fvs ents.
Proof.
  intros He. split; [intros fv; by apply fv_cleaned_duplicate|].
  unfold point_in_time_join, output_rows_of. rewrite fmap_cons.
  rewrite left_joins_duplicate by exact He.
  apply (left_joins_app cast_timestamp tables fvs ents [_]).
Qed.

End MergeProperties.


Lemma duplicate_entity_row_witness :
  (∀ fv, fv_cleaned epoch_micros sample_tables fv (entity_1 :: [entity_1; entity_2])
         = fv_cleaned epoch_micros sample_tables fv [entity_1; entity_2])
  ∧ point_in_time_join epoch_micros sample_tables [view_A] (entity_1 :: [entity_1; entity_2])
    = output_rows_of epoch_micros sample_tables [view_A] [entity_1; entity_2] entity_1
      ++ point_in_time_join epoch_micros sample_tables [view_A] [entity_1; entity_2].
Proof.
  apply (duplicate_entity_row epoch_micros sample_tables [view_A] [entity_1; entity_2] entity_1).
  apply list_elem_of_here.
Defined.

(** * The ttl and the id, beyond the claims *)

Section WindowProperties.

Variable cast_timestamp : Z → string.
Variable tables : string → list SourceRow.

(** Lengthening the ttl of a view, or removing it (ttl 0), loses no
    candidate row: a row of the base under a ttl is a row of the base under
    every longer ttl and under ttl 0. *)
Theorem longer_ttl_keeps_candidates (fv : FeatureViewQueryContext) (t1 t2 : Z)
    (ents : list EntityRow) (r : BaseRow) :
  t2 = 0 ∨ (t1 ≠ 0 ∧ t1 ≤ t2) →
  r ∈ fv_base cast_timestamp tables (with_ttl fv t1) ents →
  r ∈ fv_base cast_timestamp tables (with_ttl fv t2) ents.
Proof.
  intros Ht. rewrite !fv_base_prefilter. unfold fv_base_exact.
  rewrite !elem_of_range_join.
  intros (s & e & Hs & He & (Hle & Httl & Hkeys) & ->).
  exists s, e. split; [exact Hs|]. split; [exact He|]. split; [|reflexivity].
  split; [exact Hle|]. split; [|exact Hkeys].
  unfold ttl_entity_timestamp, interval_second in *. simpl in *.
  destruct Ht as [->|[Hne Hle12]]; [by left|right].
  destruct Httl as [->|Hge]; [done|lia].
Qed.

(** The template tests the ttl against 0 only, so a negative ttl is
    applied as a window, and that window is empty: the view has no
    candidate row and no cleaned row whatever its source holds, and its
    slot is NULL in every output row. *)
Theorem negative_ttl_no_candidates (fvs : list FeatureViewQueryContext)
    (ents : list EntityRow) (i : nat) (fv : FeatureViewQueryContext) :
  ttl fv < 0 →
  fvs !! i = Some fv →
  fv_base cast_timestamp tables fv ents = []
  ∧ fv_cleaned cast_timestamp tables fv ents = []
  ∧ ∀ o, o ∈ point_in_time_join cast_timestamp tables fvs ents →
         o_features o !! i = Some None.
Proof.
  intros Hneg Hfv.
  assert (fv_base cast_timestamp tables fv ents = []) as Hbase.
  { apply elem_of_nil_inv. intros r. rewrite fv_base_prefilter. unfold fv_base_exact.
    intros (s & e & _ & _ & (Hle & Httl & _) & _)%elem_of_range_join.
    unfold ttl_entity_timestamp, interval_second in Httl. simpl in *.
    destruct Httl as [Hz|Hge]; lia. }
  assert (fv_cleaned cast_timestamp tables fv ents = []) as Hcleaned.
  { unfold fv_cleaned. by rewrite Hbase. }
  split; [exact Hbase|]. split; [exact Hcleaned|].
  intros o [_ Hslots]%elem_of_point_in_time_join.
  destruct (Forall2_lookup_l _ _ _ _ _ Hslots Hfv) as ([vals|] & Hslot & Hof);
    [|exact Hslot].
  destruct Hof as (c & Hc & _). rewrite Hcleaned in Hc. by apply elem_of_nil in Hc.
Qed.

Lemma string_length_app (p q : string) :
  String.length (p +:+ q) = (String.length p + String.length q)%nat.
Proof. induction p as [|c p IH]; [reflexivity|]. rewrite string_app_cons. simpl. by rewrite IH. Qed.

Lemma string_app_inj_r (p q s : string) : p +:+ s = q +:+ s → p = q.
Proof.
  revert q. induction p as [|c p IH]; intros [|c' q] Heq.
  - reflexivity.
  - apply (f_equal String.length) in Heq.
    rewrite !string_length_app in Heq. simpl in Heq. lia.
  - apply (f_equal String.length) in Heq.
    rewrite !string_length_app in Heq. simpl in Heq. lia.
  - rewrite !string_app_cons in Heq. injection Heq as -> Heq. f_equal. by apply IH.
Qed.

(** What the id does determine, the rendering of timestamps being
    self-delimiting: two entity rows with the same id of a view have the
    same event timestamp and the same concatenation of key value strings;
    for a view with one entity key column they have the same key value
    string. *)
Theorem entity_row_unique_id_determines (fv : FeatureViewQueryContext)
    (e e' : EntityRow) :
  self_delimiting cast_timestamp →
  entity_row_unique_id cast_timestamp fv e = entity_row_unique_id cast_timestamp fv e' →
  er_event_timestamp e = er_event_timestamp e'
  ∧ CONCAT (cast_string <$> key_values fv e) = CONCAT (cast_string <$> key_values fv e')
  ∧ ∀ c, entities fv = [c] → cast_string (column e c) = cast_string (column e' c).
Proof.
  intros Hsd Hid.
  pose proof (entity_row_unique_id_timestamp cast_timestamp fv e e' Hsd Hid) as Hts.
  unfold entity_row_unique_id in Hid. rewrite !CONCAT_snoc, Hts in Hid.
  apply string_app_inj_r in Hid. split; [exact Hts|]. split; [exact Hid|].
  intros c Hc. unfold key_values in Hid. rewrite Hc in Hid. simpl in Hid.
  by rewrite !string_app_empty_r in Hid.
Qed.

End WindowProperties.

Lemma longer_ttl_keeps_candidates_witness :
  {| b_src := source_row (day 9) (day 9) [1] [20];
     b_entity_timestamp := day 10;
     b_entity_row_unique_id := entity_row_unique_id epoch_micros view_A entity_1 |}
    ∈ fv_base epoch_micros sample_tables (with_ttl view_A (30 * 86400)) [entity_1].
Proof.
  apply (longer_ttl_keeps_candidates epoch_micros sample_tables view_A
           (5 * 86400) (30 * 86400) [entity_1]).
  - right. split; [discriminate|]. vm_compute. discriminate.
  - by_evaluation.
Defined.

Lemma negative_ttl_no_candidates_witness :
  fv_base epoch_micros sample_tables (with_ttl view_A (-1)) [entity_1] = []
  ∧ fv_cleaned epoch_micros sample_tables (with_ttl view_A (-1)) [entity_1] = []
  ∧ ∀ o, o ∈ point_in_time_join epoch_micros sample_tables [with_ttl view_A (-1)] [entity_1] →
         o_features o !! 0%nat = Some None.
Proof.
  apply (negative_ttl_no_candidates epoch_micros sample_tables
           [with_ttl view_A (-1)] [entity_1] 0 (with_ttl view_A (-1))).
  - reflexivity.
  - reflexivity.
Defined.

Lemma entity_row_unique_id_determines_witness :
  er_event_timestamp entity_1
  = er_event_timestamp (entity_row [("id", 1); ("clicks", 7)] (day 10))
  ∧ CONCAT (cast_string <$> key_values view_A entity_1)
    = CONCAT (cast_string <$> key_values view_A
                (entity_row [("id", 1); ("clicks", 7)] (day 10)))
  ∧ ∀ c, entities view_A = [c] →
         cast_string (column entity_1 c)
         = cast_string (column (entity_row [("id", 1); ("clicks", 7)] (day 10)) c).
Proof.
  apply (entity_row_unique_id_determines epoch_micros view_A entity_1
           (entity_row [("id", 1); ("clicks", 7)] (day 10))).
  - exact epoch_micros_self_delimiting.
  - reflexivity.
Defined.

(** * pull_latest_from_table_or_query, beyond the claim *)

Section PullLatestEdges.

Import PullLatest.

Variable tables : string → list SourceRow.

(** Without join key columns the query has no PARTITION BY clause,
    the rows of the window form one partition, and the query returns at
    most one row in all. *)
Theorem pull_latest_without_join_keys (data_source : Source.SparkSource)
    (feature_name_columns : list string) (event_timestamp_column : string)
    (created_timestamp_column : option string) (start_date end_date : datetime) :
  partition_by
    (query (pull_latest_from_table_or_query data_source [] feature_name_columns
              event_timestamp_column created_timestamp_column start_date end_date)) = ""
  ∧ (length
       (run tables
          (query (pull_latest_from_table_or_query data_source [] feature_name_columns
                    event_timestamp_column created_timestamp_column start_date end_date)))
     ≤ 1)%nat.
Proof.
  split; [reflexivity|].
  set (q := query _).
  pose proof (run_NoDup_keys tables q) as Hnd.
  assert (∀ r, partition_key q r = []) as Hkey by (intros r; reflexivity).
  destruct (run tables q) as [|r1 [|r2 rows]]; simpl; [lia|lia|].
  rewrite !fmap_cons, !Hkey in Hnd. apply NoDup_cons in Hnd as [Hnot _].
  destruct Hnot. apply list_elem_of_here.
Qed.

(** When the end date, as formatted, precedes the start date the
    window is empty and the query returns no row. *)
Theorem pull_latest_empty_window (data_source : Source.SparkSource)
    (join_key_columns feature_name_columns : list string)
    (event_timestamp_column : string) (created_timestamp_column : option string)
    (start_date end_date : datetime) :
  _format_datetime end_date < _format_datetime start_date →
  run tables
    (query (pull_latest_from_table_or_query data_source join_key_columns
              feature_name_columns event_timestamp_column created_timestamp_column
              start_date end_date)) = [].
Proof.
  intros Hlt. unfold run.
  set (q := query _).
  assert (filter (in_window q) (tables (from_expression q)) = []) as ->.
  { apply elem_of_nil_inv. intros r [[Hlo Hhi] _]%list_elem_of_filter.
    change (between_start q) with (_format_datetime start_date) in Hlo.
    change (between_end q) with (_format_datetime end_date) in Hhi. lia. }
  reflexivity.
Qed.

End PullLatestEdges.

Lemma pull_latest_empty_window_witness :
  PullLatest.run sample_tables
    (PullLatest.query
       (PullLatest.pull_latest_from_table_or_query
          (Source.SparkSource_init sample_column sample_field_mapping
             (Some "a") None (Some "ts") None None None)
          ["id"] ["val"] "ts" None
          {| PullLatest.wall_clock := day 10; PullLatest.utcoffset := None |}
          {| PullLatest.wall_clock := day 1; PullLatest.utcoffset := None |})) = [].
Proof.
  apply (pull_latest_empty_window sample_tables).
  vm_compute. reflexivity.
Defined.

(** * Validation of a source, beyond the claim *)

(** [validate] accepts a source descriptor exactly when the
    descriptor has a table and the session has a relation of that name; for
    a table that does not exist it raises the source-not-found error that
    names the table, and a descriptor without table, of query kind or
    empty, is never accepted. *)
Theorem validate_accepts (table_of_None : Source.exn)
    (catalog : gmap string (list Source.StructField)) (d : Source.SparkSource) :
  (validate table_of_None catalog d = Source.Ok ()
   ↔ ∃ t, Source.table d = Some t ∧ is_Some (catalog !! t))
  ∧ (∀ t, Source.table d = Some t → catalog !! t = None →
          validate table_of_None catalog d
          = Source.Raise (Source.DataSourceNotFoundException (Some t)))
  ∧ (Source.table d = None → ∃ e, validate table_of_None catalog d = Source.Raise e).
Proof.
  unfold validate, Source.get_table_column_names_and_types, Source.session_table_fields.
  destruct (Source.table d) as [t|].
  - destruct (catalog !! t) as [fields|] eqn:Hcat; simpl.
    + split; [|split].
      * split; [|reflexivity]. intros _. exists t. split; [reflexivity|]. by rewrite Hcat.
      * intros t' [= <-]. by rewrite Hcat.
      * discriminate.
    + split; [|split].
      * split; [discriminate|]. intros (t' & [= <-] & Hsome).
        rewrite Hcat in Hsome. by destruct Hsome.
      * by intros t' [= <-] _.
      * discriminate.
  - split; [|split].
    + split.
      * destruct table_of_None; discriminate.
      * intros (t & Ht & _). discriminate.
    + discriminate.
    + intros _. destruct table_of_None; by eexists.
Qed.

(** * The order of rows *)

Section RowOrder.

Variable cast_timestamp : Z → string.

Lemma bind_Permutation_pointwise {A B} (f g : A → list B) (l l' : list A) :
  (∀ x, f x ≡ₚ g x) → l ≡ₚ l' → l ≫= f ≡ₚ l' ≫= g.
Proof.
  intros Hfg Hl. rewrite <-Hl. clear Hl l'.
  induction l as [|x l IH]; [reflexivity|].
  rewrite !bind_cons. by rewrite (Hfg x), IH.
Qed.

Lemma fv_entity_dataframe_Permutation fv (ents ents' : list EntityRow) :
  ents ≡ₚ ents' →
  fv_entity_dataframe cast_timestamp fv ents ≡ₚ fv_entity_dataframe cast_timestamp fv ents'.
Proof.
  intros Hp. unfold fv_entity_dataframe.
  apply NoDup_Permutation; [apply NoDup_remove_dups..|].
  intros ve. rewrite !elem_of_remove_dups. by rewrite Hp.
Qed.

Lemma fv_base_exact_Permutation (tables tables' : string → list SourceRow) fv
    (ents ents' : list EntityRow) :
  (∀ t, tables t ≡ₚ tables' t) →
  ents ≡ₚ ents' →
  fv_base_exact cast_timestamp tables fv ents
  ≡ₚ fv_base_exact cast_timestamp tables' fv ents'.
Proof.
  intros Ht He. unfold fv_base_exact, range_join.
  apply bind_Permutation_pointwise; [|apply Ht].
  intros s. apply bind_Permutation_pointwise; [reflexivity|].
  by rewrite (fv_entity_dataframe_Permutation fv ents ents' He).
Qed.

Lemma fv_cleaned_Permutation (tables tables' : string → list SourceRow) fv
    (ents ents' : list EntityRow) :
  (∀ t, tables t ≡ₚ tables' t) →
  ents ≡ₚ ents' →
  fv_cleaned cast_timestamp tables fv ents ≡ₚ fv_cleaned cast_timestamp tables' fv ents'.
Proof.
  intros Ht He. unfold fv_cleaned. rewrite !fv_base_prefilter, !cleaned_of_latest_of.
  pose proof (fv_base_exact_Permutation tables tables' fv ents ents' Ht He) as Hb.
  rewrite (list_filter_iff (latest_of fv (fv_base_exact cast_timestamp tables fv ents))
             (latest_of fv (fv_base_exact cast_timestamp tables' fv ents'))).
  - by rewrite Hb.
  - intros r. unfold latest_of. by rewrite Hb.
Qed.

Lemma left_join_view_Permutation fv (cleaned cleaned' : list BaseRow)
    (rows rows' : list OutputRow) :
  cleaned ≡ₚ cleaned' →
  rows ≡ₚ rows' →
  left_join_view cast_timestamp fv cleaned rows
  ≡ₚ left_join_view cast_timestamp fv cleaned' rows'.
Proof.
  intros Hc Hr. unfold left_join_view.
  apply bind_Permutation_pointwise; [|exact Hr].
  intros o.
  assert (filter (λ c, b_entity_row_unique_id c
            = entity_row_unique_id cast_timestamp fv (o_entity o)) cleaned
          ≡ₚ filter (λ c, b_entity_row_unique_id c
               = entity_row_unique_id cast_timestamp fv (o_entity o)) cleaned') as Hf
    by (by rewrite Hc).
  destruct (filter _ cleaned) as [|c l], (filter _ cleaned') as [|c' l'].
  - reflexivity.
  - by apply Permutation_nil_cons in Hf.
  - symmetry in Hf. by apply Permutation_nil_cons in Hf.
  - by rewrite Hf.
Qed.

Lemma left_joins_Permutation (tables tables' : string → list SourceRow)
    (fvs : list FeatureViewQueryContext) (ents ents' : list EntityRow)
    (rows rows' : list OutputRow) :
  (∀ t, tables t ≡ₚ tables' t) →
  ents ≡ₚ ents' →
  rows ≡ₚ rows' →
  left_joins cast_timestamp tables fvs ents rows
  ≡ₚ left_joins cast_timestamp tables' fvs ents' rows'.
Proof.
  intros Ht He. revert rows rows'.
  induction fvs as [|fv fvs IH]; intros rows rows' Hr; [exact Hr|].
  rewrite !left_joins_cons. apply IH.
  apply left_join_view_Permutation; [|exact Hr].
  by apply fv_cleaned_Permutation.
Qed.

(** The output, as a bag of rows, does not depend on the order of
    rows: sources that hold the same rows in another order and an entity
    dataframe that lists the same rows in another order give the same
    output rows, each as many times. *)
Theorem output_independent_of_row_order (tables tables' : string → list SourceRow)
    (fvs : list FeatureViewQueryContext) (ents ents' : list EntityRow) :
  (∀ t, tables t ≡ₚ tables' t) →
  ents ≡ₚ ents' →
  point_in_time_join cast_timestamp tables fvs ents
  ≡ₚ point_in_time_join cast_timestamp tables' fvs ents'.
Proof.
  intros Ht He. unfold point_in_time_join.
  apply left_joins_Permutation; [exact Ht|exact He|]. by rewrite He.
Qed.

End RowOrder.

Lemma output_independent_of_row_order_witness :
  point_in_time_join epoch_micros sample_tables [view_A; view_W] [entity_1; entity_2]
  ≡ₚ point_in_time_join epoch_micros (λ t, reverse (sample_tables t)) [view_A; view_W]
       [entity_2; entity_1].
Proof.
  apply (output_independent_of_row_order epoch_micros sample_tables
           (λ t, reverse (sample_tables t)) [view_A; view_W]
           [entity_1; entity_2] [entity_2; entity_1]).
  - intros t. symmetry. apply reverse_Permutation.
  - apply perm_swap.
Defined.

(** * The session and the job *)

Section JobSplit.

Import Job.

Example split_examples :
  split EOS "a---EOS---b" = ["a"; "b"]
  ∧ split EOS "a---EOS---" = ["a"; ""]
  ∧ split EOS "" = [""]
  ∧ split EOS "x---EOS---EOS---" = ["x"; "EOS---"]
  ∧ split EOS "SELECT 1" = ["SELECT 1"].
Proof. repeat split; reflexivity. Qed.

End JobSplit.

Section JobProperties.

Import Job.

Lemma split_go_skip (sep : string) (a cur rest : string) :
  split_go sep (String.length a) cur (a +:+ rest) = split_go sep 0 cur rest.
Proof.
  induction a as [|c a IH]; [by destruct rest|].
  rewrite string_app_cons. simpl. exact IH.
Qed.

Lemma prefix_app_same (a rest : string) : String.prefix a (a +:+ rest) = true.
Proof.
  induction a as [|c a IH]; [by destruct rest|].
  rewrite string_app_cons. simpl. destruct (Ascii.ascii_dec c c); [exact IH|done].
Qed.

Lemma prefix_app_long (a b c : string) :
  (String.length a ≤ String.length b)%nat →
  String.prefix a (b +:+ c) = String.prefix a b.
Proof.
  revert b. induction a as [|x a IH]; intros b Hlen.
  - by destruct b, c.
  - destruct b as [|y b]; [simpl in Hlen; lia|].
    rewrite string_app_cons. simpl. destruct (Ascii.ascii_dec x y); [|reflexivity].
    apply IH. simpl in Hlen. lia.
Qed.

Lemma prefix_length (a b : string) :
  String.prefix a b = true → (String.length a ≤ String.length b)%nat.
Proof.
  revert b. induction a as [|x a IH]; intros b; [simpl; lia|].
  destruct b as [|y b]; simpl; [discriminate|].
  destruct (Ascii.ascii_dec x y); [|discriminate].
  intros H%IH. lia.
Qed.

(** A part that is clear of the separator, and followed by one, is read
    as a part. *)
Lemma split_go_part (sep : string) (p cur rest : string) :
  sep ≠ "" →
  clear_of sep p →
  split_go sep 0 cur (p +:+ sep +:+ rest) = (cur +:+ p) :: split_go sep 0 "" rest.
Proof.
  intros Hsep. revert cur. induction p as [|c p IH]; intros cur Hclear.
  - change ("" +:+ sep +:+ rest) with (sep +:+ rest). rewrite string_app_empty_r.
    destruct sep as [|x sep']; [done|]. rewrite string_app_cons.
    change (split_go (String x sep') 0 cur (String x (sep' +:+ rest)))
      with (if String.prefix (String x sep') (String x (sep' +:+ rest))
            then cur :: split_go (String x sep') (String.length (String x sep') - 1) ""
                          (sep' +:+ rest)
            else split_go (String x sep') 0 (cur +:+ String x "") (sep' +:+ rest)).
    rewrite <-string_app_cons, prefix_app_same. f_equal.
    replace (String.length (String x sep') - 1)%nat with (String.length sep')
      by (simpl; lia).
    apply split_go_skip.
  - destruct Hclear as [Hnot Hclear]. rewrite string_app_cons.
    change (split_go sep 0 cur (String c (p +:+ sep +:+ rest)))
      with (if String.prefix sep (String c (p +:+ sep +:+ rest))
            then cur :: split_go sep (String.length sep - 1) "" (p +:+ sep +:+ rest)
            else split_go sep 0 (cur +:+ String c "") (p +:+ sep +:+ rest)).
    assert (String.prefix sep (String c (p +:+ sep +:+ rest)) = false) as ->.
    { change (String c (p +:+ sep +:+ rest)) with (String c p +:+ (sep +:+ rest)).
      rewrite <-string_app_assoc, prefix_app_long; [exact Hnot|].
      rewrite string_length_app. lia. }
    rewrite IH by exact Hclear. by rewrite string_app_assoc.
Qed.

(** A last part that is clear of the separator is read as one part. *)
Lemma split_go_last (sep : string) (p cur : string) :
  clear_of sep p → split_go sep 0 cur p = [cur +:+ p].
Proof.
  revert cur. induction p as [|c p IH]; intros cur Hclear.
  - simpl. by rewrite string_app_empty_r.
  - destruct Hclear as [Hnot Hclear].
    change (split_go sep 0 cur (String c p))
      with (if String.prefix sep (String c p)
            then cur :: split_go sep (String.length sep - 1) "" p
            else split_go sep 0 (cur +:+ String c "") p).
    destruct (String.prefix sep (String c p)) eqn:Hp.
    + rewrite prefix_app_long, Hp in Hnot by (by apply prefix_length). discriminate.
    + rewrite IH by exact Hclear. by rewrite string_app_assoc.
Qed.

(** Splitting the parts joined by the separator gives the parts back,
    for parts that are clear of the separator. *)
Lemma split_concat (sep : string) (p : string) (parts : list string) :
  sep ≠ "" →
  Forall (clear_of sep) (p :: parts) →
  split sep (String.concat sep (p :: parts)) = p :: parts.
Proof.
  intros Hsep. unfold split. revert p.
  induction parts as [|q parts IH]; intros p Hclear.
  - simpl. apply Forall_cons in Hclear as [Hp _]. by rewrite split_go_last.
  - apply Forall_cons in Hclear as [Hp Hrest].
    change (String.concat sep (p :: q :: parts))
      with (p +:+ sep +:+ String.concat sep (q :: parts)).
    rewrite split_go_part by done. f_equal. by apply IH.
Qed.

Lemma split_go_not_nil (sep : string) (skip : nat) (cur s : string) :
  split_go sep skip cur s ≠ [].
Proof.
  revert skip cur. induction s as [|c s IH]; intros skip cur; [done|].
  destruct skip as [|k]; [|exact (IH k cur)].
  change (split_go sep 0 cur (String c s))
    with (if String.prefix sep (String c s)
          then cur :: split_go sep (String.length sep - 1) "" s
          else split_go sep 0 (cur +:+ String c "") s).
  destruct (String.prefix sep (String c s)); [discriminate|apply IH].
Qed.

End JobProperties.

Section SparkProperties.

Import Job.

Variable World : Type.
Variable SparkSession : Type.
Variable DataFrame : Type.
Variable SparkError : Type.
Variable getActiveSession : World → option SparkSession.
Variable getOrCreate : option (gmap string string) → World → SparkSession * World.
Variable conf_set : SparkSession → string → string → World → World.
Variable sql : SparkSession → string → World → outcome SparkError DataFrame * World.

(** [spark_session.conf.get(key)] *)
Variable conf_get : SparkSession → string → World → option string.

Section Session.

(** A setting that was set reads as set, and setting it changes no other
    setting and not which session is active. *)
Hypothesis conf_get_set :
  ∀ s k v w, conf_get s k (conf_set s k v w) = Some v.
Hypothesis conf_get_set_other :
  ∀ s k k' v w, k' ≠ k → conf_get s k' (conf_set s k v w) = conf_get s k' w.
Hypothesis getActiveSession_set :
  ∀ s k v w, getActiveSession (conf_set s k v w) = getActiveSession w.
Hypothesis conf_set_twice :
  ∀ s k v w, conf_set s k v (conf_set s k v w) = conf_set s k v w.

(** The session the builder returns is the active one afterwards. *)
Hypothesis getActiveSession_created :
  ∀ conf w s w', getOrCreate conf w = (s, w') → getActiveSession w' = Some s.

(** The session [get_spark_session_or_start_new_with_repoconfig]
    returns is the active session afterwards and has
    spark.sql.parser.quotedRegexColumnNames set to true; a session that
    was active is the one returned, with its other settings kept and the
    store configuration not read; and a later call returns the same session
    and changes nothing, whatever store configuration it is given. *)
Theorem session_reused_with_regex_columns (store_config : SparkOfflineStoreConfig)
    (w : World) :
  conf_get (get_spark_session_or_start_new_with_repoconfig World SparkSession
              getActiveSession getOrCreate conf_set store_config w).1
    "spark.sql.parser.quotedRegexColumnNames"
    (get_spark_session_or_start_new_with_repoconfig World SparkSession
       getActiveSession getOrCreate conf_set store_config w).2 = Some "true"
  ∧ getActiveSession
      (get_spark_session_or_start_new_with_repoconfig World SparkSession
         getActiveSession getOrCreate conf_set store_config w).2
    = Some (get_spark_session_or_start_new_with_repoconfig World SparkSession
              getActiveSession getOrCreate conf_set store_config w).1
  ∧ (∀ s, getActiveSession w = Some s →
          (∀ store_config',
             get_spark_session_or_start_new_with_repoconfig World SparkSession
               getActiveSession getOrCreate conf_set store_config' w
             = (s, conf_set s "spark.sql.parser.quotedRegexColumnNames" "true" w))
          ∧ ∀ k, k ≠ "spark.sql.parser.quotedRegexColumnNames" →
                 conf_get s k
                   (get_spark_session_or_start_new_with_repoconfig World SparkSession
                      getActiveSession getOrCreate conf_set store_config w).2
                 = conf_get s k w)
  ∧ (∀ store_config',
       get_spark_session_or_start_new_with_repoconfig World SparkSession
         getActiveSession getOrCreate conf_set store_config'
         (get_spark_session_or_start_new_with_repoconfig World SparkSession
            getActiveSession getOrCreate conf_set store_config w).2
       = get_spark_session_or_start_new_with_repoconfig World SparkSession
           getActiveSession getOrCreate conf_set store_config w).
Proof.
  assert (∀ s w0 cfg, getActiveSession w0 = Some s →
            get_spark_session_or_start_new_with_repoconfig World SparkSession
              getActiveSession getOrCreate conf_set cfg w0
            = (s, conf_set s "spark.sql.parser.quotedRegexColumnNames" "true" w0))
    as Hreuse.
  { intros s w0 cfg Hs. unfold get_spark_session_or_start_new_with_repoconfig.
    by rewrite Hs. }
  assert (∃ s w1, get_spark_session_or_start_new_with_repoconfig World SparkSession
                    getActiveSession getOrCreate conf_set store_config w
                  = (s, conf_set s "spark.sql.parser.quotedRegexColumnNames" "true" w1)
                  ∧ getActiveSession w1 = Some s) as (s & w1 & Hcall & Hactive).
  { destruct (getActiveSession w) as [s|] eqn:Hs.
    - exists s, w. split; [by apply Hreuse|exact Hs].
    - unfold get_spark_session_or_start_new_with_repoconfig. rewrite Hs.
      destruct (spark_conf store_config) as [conf|]; [destruct (decide (conf = ∅))|];
        match goal with
        | |- context [getOrCreate ?c w] =>
            destruct (getOrCreate c w) as [s w1] eqn:Hcreate
        end;
        exists s, w1; (split; [reflexivity|by eapply getActiveSession_created]). }
  rewrite Hcall. simpl. split; [apply conf_get_set|].
  split; [by rewrite getActiveSession_set|]. split.
  - intros s0 Hs0. split; [intros cfg'; by apply Hreuse|].
    intros k Hk. rewrite (Hreuse s0 w store_config Hs0) in Hcall.
    injection Hcall as <- Hw. rewrite <-Hw. by apply conf_get_set_other.
  - intros cfg'. rewrite (Hreuse s) by (by rewrite getActiveSession_set).
    by rewrite conf_set_twice.
Qed.

End Session.

Lemma run_statements_last (s : SparkSession) (statements : list string)
    (df : DataFrame) (w : World) :
  (run_statements World SparkSession DataFrame SparkError sql s statements (Some df) w).1
  ≠ Raised ValueError.
Proof.
  revert df w. induction statements as [|st statements IH]; intros df w; [discriminate|].
  simpl. destruct (sql s st w) as [[df'|e] w']; [apply IH|discriminate].
Qed.

(** [to_spark_df] never fails to unpack: whatever the query text,
    it submits at least one statement and raises only what a statement
    raises.  On statements joined by the separator, each clear of it, it
    submits those statements, in order, each in the state the one before
    left, stops at the first that raises and returns the data frame of the
    last; a query that is one such statement is submitted as it is. *)
Theorem to_spark_df_statements (s : SparkSession) (statement : string)
    (statements : list string) (w : World) :
  Forall (clear_of EOS) (statement :: statements) →
  to_spark_df World SparkSession DataFrame SparkError sql s
    (String.concat EOS (statement :: statements)) w
  = run_statements World SparkSession DataFrame SparkError sql s
      (statement :: statements) None w
  ∧ to_spark_df World SparkSession DataFrame SparkError sql s statement w
    = match sql s statement w with
      | (Returned df, w') => (Returned df, w')
      | (Raised e, w') => (Raised (SqlError e), w')
      end
  ∧ ∀ query w0,
      (to_spark_df World SparkSession DataFrame SparkError sql s query w0).1
      ≠ Raised ValueError.
Proof.
  intros Hclear. split; [|split].
  - unfold to_spark_df. by rewrite split_concat.
  - unfold to_spark_df.
    assert (split EOS statement = [statement]) as ->.
    { apply (split_concat EOS statement []); [done|].
      apply Forall_cons in Hclear as [Hst _]. by apply Forall_singleton. }
    simpl. by destruct (sql s statement w) as [[df|e] w'].
  - intros query w0. unfold to_spark_df, split.
    pose proof (split_go_not_nil EOS 0 "" query) as Hne.
    destruct (split_go EOS 0 "" query) as [|st sts]; [done|].
    simpl. destruct (sql s st w0) as [[df|e] w']; [apply run_statements_last|discriminate].
Qed.

End SparkProperties.

Lemma session_reused_with_regex_columns_witness :
  Job.sample_conf_get
    (Job.get_spark_session_or_start_new_with_repoconfig (bool * gmap string string) unit
       Job.sample_getActiveSession Job.sample_getOrCreate Job.sample_conf_set
       {| Job.type := "spark"; Job.spark_conf := Some {[ "spark.master" := "local" ]} |}
       (false, ∅)).1
    "spark.sql.parser.quotedRegexColumnNames"
    (Job.get_spark_session_or_start_new_with_repoconfig (bool * gmap string string) unit
       Job.sample_getActiveSession Job.sample_getOrCreate Job.sample_conf_set
       {| Job.type := "spark"; Job.spark_conf := Some {[ "spark.master" := "local" ]} |}
       (false, ∅)).2 = Some "true".
Proof.
  apply (session_reused_with_regex_columns (bool * gmap string string) unit
           Job.sample_getActiveSession Job.sample_getOrCreate Job.sample_conf_set
           Job.sample_conf_get).
  - intros s k v w. apply lookup_insert_eq.
  - intros s k k' v w Hk. by apply lookup_insert_ne.
  - reflexivity.
  - intros s k v [b m]. unfold Job.sample_conf_set. simpl. by rewrite insert_insert_eq.
  - intros conf w [] w' [= <-]. reflexivity.
Defined.

Lemma to_spark_df_statements_witness :
  Job.to_spark_df nat unit string unit (λ _ st n, (Job.Returned st, S n)) ()
    (String.concat Job.EOS ["CREATE VIEW v AS SELECT 1"; "SELECT * FROM v"]) 0%nat
  = Job.run_statements nat unit string unit (λ _ st n, (Job.Returned st, S n)) ()
      ["CREATE VIEW v AS SELECT 1"; "SELECT * FROM v"] None 0%nat
  ∧ Job.to_spark_df nat unit string unit (λ _ st n, (Job.Returned st, S n)) ()
      "CREATE VIEW v AS SELECT 1" 0%nat
    = match (Job.Returned "CREATE VIEW v AS SELECT 1" : Job.outcome unit string, 1%nat) with
      | (Job.Returned df, w') => (Job.Returned df, w')
      | (Job.Raised e, w') => (Job.Raised (Job.SqlError e), w')
      end
  ∧ ∀ query w0,
      (Job.to_spark_df nat unit string unit (λ _ st n, (Job.Returned st, S n)) ()
         query w0).1
      ≠ Job.Raised Job.ValueError.
Proof.
  apply (to_spark_df_statements nat unit string unit (λ _ st n, (Job.Returned st, S n)) ()
           "CREATE VIEW v AS SELECT 1" ["SELECT * FROM v"] 0%nat).
  by_evaluation.
Defined.

(** * One entity row at a time *)

Section BatchIndependence.

Variable cast_timestamp : Z → string.
Variable tables : string → list SourceRow.

Lemma filter_ext_elem {A} (P Q : A → Prop) `{∀ x, Decision (P x)} `{∀ x, Decision (Q x)}
    (l : list A) :
  (∀ x, x ∈ l → (P x ↔ Q x)) → filter P l = filter Q l.
Proof.
  induction l as [|x l IH]; intros Hext; [reflexivity|].
  rewrite !filter_cons.
  rewrite IH by (intros y Hy; apply Hext; by apply list_elem_of_further).
  pose proof (Hext x (list_elem_of_here _ _)) as Hx.
  destruct (decide (P x)) as [HP|HP], (decide (Q x)) as [HQ|HQ].
  - reflexivity.
  - destruct HQ. by apply Hx.
  - destruct HP. by apply Hx.
  - reflexivity.
Qed.

Lemma filter_comm {A} (P Q : A → Prop) `{∀ x, Decision (P x)} `{∀ x, Decision (Q x)}
    (l : list A) :
  filter P (filter Q l) = filter Q (filter P l).
Proof.
  rewrite !list_filter_filter. apply list_filter_iff. intros x. tauto.
Qed.

Lemma filter_bind {A B} (P : B → Prop) `{∀ x, Decision (P x)} (f : A → list B)
    (l : list A) :
  filter P (l ≫= f) = l ≫= (λ x, filter P (f x)).
Proof.
  induction l as [|x l IH]; [reflexivity|].
  by rewrite !bind_cons, filter_app, IH.
Qed.

Lemma bind_filter_singleton {A B} (C : A → Prop) `{∀ x, Decision (C x)}
    (g : A → B) (l : list A) :
  l ≫= (λ x, if decide (C x) then [g x] else []) = filter C l ≫= (λ x, [g x]).
Proof.
  induction l as [|x l IH]; [reflexivity|].
  rewrite bind_cons, filter_cons, IH. destruct (decide (C x)); [|reflexivity].
  by rewrite bind_cons.
Qed.

Lemma filter_NoDup_singleton {A} (P : A → Prop) `{∀ x, Decision (P x)}
    (l : list A) (x : A) :
  NoDup l → x ∈ l → P x → (∀ y, y ∈ l → P y → y = x) → filter P l = [x].
Proof.
  induction l as [|y l IH]; intros Hnd Hx HP Huniq; [by apply elem_of_nil in Hx|].
  apply NoDup_cons in Hnd as [Hy Hnd]. rewrite filter_cons.
  destruct (decide (P y)) as [HPy|HPy].
  - assert (y = x) as -> by (apply Huniq; [apply list_elem_of_here|exact HPy]).
    f_equal. apply elem_of_nil_inv. intros z [HPz Hz]%list_elem_of_filter.
    assert (z = x) as -> by (apply Huniq; [by apply list_elem_of_further|exact HPz]).
    by apply Hy.
  - apply elem_of_cons in Hx as [->|Hx]; [done|].
    apply IH; [exact Hnd|exact Hx|exact HP|].
    intros z Hz. apply Huniq. by apply list_elem_of_further.
Qed.

(** The candidate rows that carry an id are the rows of the range join
    with the entity rows of that id. *)
Lemma filter_id_range_join fv (sub : list SourceRow) (ents : list EntityRow) (k : string) :
  filter (λ r, b_entity_row_unique_id r = k) (range_join cast_timestamp fv sub ents)
  = s ← sub;
    e ← filter (join_cond fv s)
           (filter (λ ve, ve_entity_row_unique_id ve = k)
              (fv_entity_dataframe cast_timestamp fv ents));
    [ {| b_src := s;
         b_entity_timestamp := ve_entity_timestamp e;
         b_entity_row_unique_id := ve_entity_row_unique_id e |} ].
Proof.
  unfold range_join. rewrite filter_bind. apply list_bind_ext; [|reflexivity].
  intros s. rewrite filter_bind.
  rewrite (filter_comm (join_cond fv s) (λ ve, ve_entity_row_unique_id ve = k)).
  rewrite <-(bind_filter_singleton (λ ve, ve_entity_row_unique_id ve = k)
               (λ e, {| b_src := s;
                        b_entity_timestamp := ve_entity_timestamp e;
                        b_entity_row_unique_id := ve_entity_row_unique_id e |})).
  apply list_bind_ext; [|reflexivity].
  intros ve. rewrite filter_cons, filter_nil. simpl.
  by destruct (decide (ve_entity_row_unique_id ve = k)).
Qed.

Lemma fv_entity_dataframe_singleton fv (e : EntityRow) :
  fv_entity_dataframe cast_timestamp fv [e] = [view_entity_row cast_timestamp fv e].
Proof.
  reflexivity.
Qed.

(** The candidate rows with the id of an entity row whose id no different
    entity row shares are the candidate rows of that entity row alone. *)
Lemma fv_base_exact_of_id fv (ents : list EntityRow) (e : EntityRow) :
  e ∈ ents →
  (∀ e', e' ∈ ents →
         entity_row_unique_id cast_timestamp fv e' = entity_row_unique_id cast_timestamp fv e →
         view_entity_row cast_timestamp fv e' = view_entity_row cast_timestamp fv e) →
  filter (λ r, b_entity_row_unique_id r = entity_row_unique_id cast_timestamp fv e)
    (fv_base_exact cast_timestamp tables fv ents)
  = fv_base_exact cast_timestamp tables fv [e].
Proof.
  intros He Halone. unfold fv_base_exact. rewrite filter_id_range_join.
  unfold range_join. rewrite fv_entity_dataframe_singleton.
  rewrite (filter_NoDup_singleton _ (fv_entity_dataframe cast_timestamp fv ents)
             (view_entity_row cast_timestamp fv e)).
  - reflexivity.
  - apply NoDup_remove_dups.
  - apply elem_of_fv_entity_dataframe. by exists e.
  - reflexivity.
  - intros ve (e' & -> & He')%elem_of_fv_entity_dataframe Hid. by apply Halone.
Qed.

Lemma cleaned_of_filter_id (fv : FeatureViewQueryContext) (base : list BaseRow) (k : string) :
  filter (λ r, b_entity_row_unique_id r = k) (cleaned_of fv base)
  = cleaned_of fv (filter (λ r, b_entity_row_unique_id r = k) base).
Proof.
  rewrite !cleaned_of_latest_of. rewrite !list_filter_filter.
  apply filter_ext_elem. intros r Hr. split.
  - intros [Hk Hl]. split; [|exact Hk].
    unfold latest_of in *. rewrite Forall_forall in Hl. apply Forall_forall.
    intros r' [_ Hr']%list_elem_of_filter. by apply Hl.
  - intros [Hl Hk]. split; [exact Hk|].
    unfold latest_of in *. rewrite Forall_forall in Hl. apply Forall_forall.
    intros r' Hr' Hid. apply Hl; [|exact Hid].
    apply list_elem_of_filter. split; [by rewrite Hid|exact Hr'].
Qed.

Lemma fv_cleaned_of_id fv (ents : list EntityRow) (e : EntityRow) :
  e ∈ ents →
  (∀ e', e' ∈ ents →
         entity_row_unique_id cast_timestamp fv e' = entity_row_unique_id cast_timestamp fv e →
         view_entity_row cast_timestamp fv e' = view_entity_row cast_timestamp fv e) →
  filter (λ c, b_entity_row_unique_id c = entity_row_unique_id cast_timestamp fv e)
    (fv_cleaned cast_timestamp tables fv ents)
  = filter (λ c, b_entity_row_unique_id c = entity_row_unique_id cast_timestamp fv e)
      (fv_cleaned cast_timestamp tables fv [e]).
Proof.
  intros He Halone. unfold fv_cleaned. rewrite !fv_base_prefilter, !cleaned_of_filter_id.
  rewrite (fv_base_exact_of_id fv ents e He Halone).
  rewrite (fv_base_exact_of_id fv [e] e).
  - reflexivity.
  - apply list_elem_of_here.
  - by intros e' ->%list_elem_of_singleton _.
Qed.

Lemma left_join_view_agree fv (cleaned cleaned' : list BaseRow) (e : EntityRow)
    (rows : list OutputRow) :
  filter (λ c, b_entity_row_unique_id c = entity_row_unique_id cast_timestamp fv e) cleaned
  = filter (λ c, b_entity_row_unique_id c = entity_row_unique_id cast_timestamp fv e) cleaned' →
  Forall (λ o, o_entity o = e) rows →
  left_join_view cast_timestamp fv cleaned rows
  = left_join_view cast_timestamp fv cleaned' rows
  ∧ Forall (λ o, o_entity o = e) (left_join_view cast_timestamp fv cleaned rows).
Proof.
  intros Hagree Hrows. split.
  - unfold left_join_view. apply Forall_bind_ext.
    eapply Forall_impl; [exact Hrows|]. intros o Ho. simpl in Ho.
    by rewrite Ho, Hagree.
  - apply Forall_forall. intros o' Ho'.
    apply elem_of_left_join_view in Ho' as (o & slot & Ho & _ & ->).
    rewrite Forall_forall in Hrows. simpl. by apply Hrows.
Qed.

Lemma left_joins_agree (fvs : list FeatureViewQueryContext) (ents ents' : list EntityRow)
    (e : EntityRow) (rows : list OutputRow) :
  Forall (λ fv,
     filter (λ c, b_entity_row_unique_id c = entity_row_unique_id cast_timestamp fv e)
       (fv_cleaned cast_timestamp tables fv ents)
     = filter (λ c, b_entity_row_unique_id c = entity_row_unique_id cast_timestamp fv e)
         (fv_cleaned cast_timestamp tables fv ents')) fvs →
  Forall (λ o, o_entity o = e) rows →
  left_joins cast_timestamp tables fvs ents rows
  = left_joins cast_timestamp tables fvs ents' rows.
Proof.
  revert rows. induction fvs as [|fv fvs IH]; intros rows Hfvs Hrows; [reflexivity|].
  apply Forall_cons in Hfvs as [Hfv Hfvs]. rewrite !left_joins_cons.
  destruct (left_join_view_agree fv _ _ e rows Hfv Hrows) as [<- Hrows'].
  by apply IH.
Qed.

(** An entity row whose id, for every feature view, is shared by no
    different row of the entity dataframe gets the output rows it would get
    if the entity dataframe held that row alone: the other rows of a batch
    do not change its features. *)
Theorem batch_independence (fvs : list FeatureViewQueryContext) (ents : list EntityRow)
    (e : EntityRow) :
  e ∈ ents →
  (∀ fv e', fv ∈ fvs → e' ∈ ents →
     entity_row_unique_id cast_timestamp fv e' = entity_row_unique_id cast_timestamp fv e →
     view_entity_row cast_timestamp fv e' = view_entity_row cast_timestamp fv e) →
  output_rows_of cast_timestamp tables fvs ents e
  = output_rows_of cast_timestamp tables fvs [e] e.
Proof.
  intros He Halone. unfold output_rows_of. apply (left_joins_agree fvs ents [e] e).
  - apply Forall_forall. intros fv Hfv. apply fv_cleaned_of_id; [exact He|].
    intros e' He'. by apply Halone.
  - by apply Forall_singleton.
Qed.

End BatchIndependence.

Lemma batch_independence_witness :
  output_rows_of epoch_micros sample_tables [view_A; view_W]
    [entity_1; entity_2; entity_late] entity_1
  = output_rows_of epoch_micros sample_tables [view_A; view_W] [entity_1] entity_1.
Proof.
  apply (batch_independence epoch_micros sample_tables [view_A; view_W]
           [entity_1; entity_2; entity_late] entity_1).
  - apply list_elem_of_here.
  - assert (Forall (λ fv, Forall (λ e',
              entity_row_unique_id epoch_micros fv e'
              = entity_row_unique_id epoch_micros fv entity_1 →
              view_entity_row epoch_micros fv e' = view_entity_row epoch_micros fv entity_1)
              [entity_1; entity_2; entity_late]) [view_A; view_W]) as Hall
      by by_evaluation.
    intros fv e' Hfv He'. rewrite Forall_forall in Hall. specialize (Hall fv Hfv).
    rewrite Forall_forall in Hall. exact (Hall e' He').
Defined.
